(** * lmswebsiteBackend: student directory, batch registry, eligibility query

    A shallow embedding of the request handlers of
    [src/controllers/batchController.js] and
    [src/controllers/studentController.js].

    - A JavaScript value that arrives in a request body, or is stored in a
      document field, is a [JsValue]; JSON numbers are restricted to
      integers (only their truthiness is ever inspected by the handlers).
    - A collection is the list of its documents in insertion order
      ([findOne] returns the first match).
    - A handler is a function from the database state and the request to a
      response and the database state after the request.  A [throw] inside
      a [try] block is the left injection of [Exn.t + _].
    - The ODM library (identifier parsing, population of references) and the
      schema files [models/*.js], which are not part of the sources at hand,
      are the fields of the class [Odm]. *)

From Stdlib Require Import List String Ascii ZArith Bool Lia PeanoNat.
Import ListNotations.
Local Open Scope string_scope.
Local Open Scope list_scope.

Set Implicit Arguments.
Set Warnings "-register-all".

(** ** JavaScript values *)

(** A 12-byte ObjectId, held as its hexadecimal rendering. *)
Definition ObjectId := string.

Inductive JsValue : Type :=
| JUndefined
| JNull
| JBool (b : bool)
| JNum (n : Z)
| JStr (s : string)
| JOid (o : ObjectId)
| JArr (elems : list JsValue)
| JObj (fields : list (string * JsValue)).

(** [!!v] *)
Definition truthy (v : JsValue) : bool :=
  match v with
  | JUndefined | JNull => false
  | JBool b => b
  | JNum n => negb (n =? 0)%Z
  | JStr s => negb (s =? "")
  | JOid _ | JArr _ | JObj _ => true
  end.

(** [!v] *)
Definition falsy (v : JsValue) : bool := negb (truthy v).

(** Equality of stored values, as the query engine compares them. *)
Fixpoint js_eqb (a b : JsValue) {struct a} : bool :=
  match a, b with
  | JUndefined, JUndefined => true
  | JNull, JNull => true
  | JBool x, JBool y => Bool.eqb x y
  | JNum x, JNum y => (x =? y)%Z
  | JStr x, JStr y => (x =? y)
  | JOid x, JOid y => (x =? y)
  | JArr l, JArr l' =>
      (fix all2 (l l' : list JsValue) : bool :=
         match l, l' with
         | [], [] => true
         | x :: r, y :: r' => js_eqb x y && all2 r r'
         | _, _ => false
         end) l l'
  | JObj f, JObj f' =>
      (fix all2 (f f' : list (string * JsValue)) : bool :=
         match f, f' with
         | [], [] => true
         | (k, x) :: r, (k', y) :: r' => (k =? k') && js_eqb x y && all2 r r'
         | _, _ => false
         end) f f'
  | _, _ => false
  end.

(** ** Exceptions *)

Module Exn.
Record t : Type := mk { name : string; message : string }.
End Exn.

Definition CastError : Exn.t := Exn.mk "CastError" "Cast to ObjectId failed".
Definition ValidationError : Exn.t := Exn.mk "ValidationError" "Validation failed".
Definition BSONError : Exn.t := Exn.mk "BSONError" "input must be a 24 character hex string".
Definition TypeError (m : string) : Exn.t := Exn.mk "TypeError" m.
(** [new Error(m)] *)
Definition Error_new (m : string) : Exn.t := Exn.mk "Error" m.

(** The body of a [try] block: it throws or it yields a value. *)
Definition Try (A : Type) : Type := (Exn.t + A)%type.

Definition ret {A} (a : A) : Try A := inr a.
Definition throw {A} (e : Exn.t) : Try A := inl e.
Definition bind {A B} (m : Try A) (k : A -> Try B) : Try B :=
  match m with
  | inl e => inl e
  | inr a => k a
  end.

Notation "x <- m ;; k" := (bind m (fun x => k))
  (at level 61, m at next level, right associativity).

(** [o] is [None] when the underlying call throws [e]. *)
Definition orThrow {A} (e : Exn.t) (o : option A) : Try A :=
  match o with
  | Some a => ret a
  | None => throw e
  end.

(** ** Documents *)

(** An entry of a student's [batch_creation] array. *)
Module Marker.
Record t : Type := mk { subject_id : ObjectId; status : bool }.

Definition eqb (a b : t) : bool :=
  (subject_id a =? subject_id b) && Bool.eqb (status a) (status b).
End Marker.

Module Student.
Record t : Type := mk {
  _id : ObjectId;
  auth_id : JsValue;
  student_id : JsValue;
  user_id : JsValue;
  role : JsValue;
  class : JsValue;
  subject_id : JsValue;
  board_id : JsValue;
  subscribed_Package : JsValue;
  is_paid : JsValue;
  payment_id : JsValue;
  subscription_id : JsValue;
  phone_number : JsValue;
  last_online : JsValue;
  created_at : JsValue;
  (** [None]: the document has no [batch_creation] field *)
  batch_creation : option (list Marker.t)
}.

Definition with_batch_creation (bc : option (list Marker.t)) (s : t) : t :=
  mk (_id s) (auth_id s) (student_id s) (user_id s) (role s) (class s)
     (subject_id s) (board_id s) (subscribed_Package s) (is_paid s)
     (payment_id s) (subscription_id s) (phone_number s) (last_online s)
     (created_at s) bc.

Definition with_class (c : JsValue) (s : t) : t :=
  mk (_id s) (auth_id s) (student_id s) (user_id s) (role s) c
     (subject_id s) (board_id s) (subscribed_Package s) (is_paid s)
     (payment_id s) (subscription_id s) (phone_number s) (last_online s)
     (created_at s) (batch_creation s).
End Student.

(** Modelled from the spec: the Batch schema ([models/batchModel.js] is not
    among the sources).  A batch is "a teacher, a class, a subject, a roster
    of students, a schedule"; teacher, class, subject and roster are
    references, the remaining attributes are kept as submitted. *)
Module Batch.
Record t : Type := mk {
  _id : ObjectId;
  batch_name : JsValue;
  batch_image : JsValue;
  subject_id : ObjectId;
  class_id : ObjectId;
  teacher_id : ObjectId;
  students : list ObjectId;
  date : JsValue;
  type_of_batch : JsValue
}.
End Batch.

(** Modelled from the spec: Subject, Package and Class documents
    ([models/subjectModel.js], [models/packagesModel.js] and
    [models/classModel.js] are not among the sources).  A package lists the
    subjects it includes. *)
Module Subject.
Record t : Type := mk { _id : ObjectId; subject_name : JsValue }.
End Subject.

Module Package.
Record t : Type := mk {
  _id : ObjectId;
  package_name : JsValue;
  subject_id : list ObjectId
}.
End Package.

Module Class_.
Record t : Type := mk {
  _id : ObjectId;
  className : JsValue;
  classLevel : JsValue
}.
End Class_.

(** The database: one list per collection. *)
Module Db.
Record t : Type := mk {
  students : list Student.t;
  batches : list Batch.t;
  subjects : list Subject.t;
  packages : list Package.t;
  classes : list Class_.t
}.

Definition with_students (l : list Student.t) (d : t) : t :=
  mk l (batches d) (subjects d) (packages d) (classes d).

Definition with_batches (l : list Batch.t) (d : t) : t :=
  mk (students d) l (subjects d) (packages d) (classes d).

(** The storage layer keeps [_id] unique within a collection. *)
Definition wf (d : t) : Prop :=
  NoDup (map Student._id (students d)).
End Db.

(** ** The ODM library and the schemas *)

(** The argument of [populate]. *)
Inductive PopulateOpt : Type :=
| Path (path : string)
| PathSelect (path select : string)
| Nested (path : string) (inner : PopulateOpt).

Class Odm : Type := {
  (** [mongoose.Types.ObjectId.isValid(v)] *)
  ObjectId_isValid : JsValue -> bool;
  (** the cast to ObjectId that the ODM applies to a value compared with,
      or stored in, a reference field (for a string, the identifier it
      spells); [None] when the cast raises [CastError]; a value that the
      cast lets through as it is, [null], is an identifier that no document
      has *)
  ObjectId_new : JsValue -> option ObjectId;
  (** the constructor call [new mongoose.Types.ObjectId(v)], which
      generates an identifier when it is handed none; [None] when it
      throws *)
  ObjectId_constructor : JsValue -> option ObjectId;
  (** the values the Student schema gives to the paths that
      [new Student({...})] is not handed *)
  Student_defaults : Student.t;
  (** the value that the path named takes when it is assigned [v], for the
      paths of the Student schema whose type the specification does not
      give; [None] when the cast to the type of the path fails *)
  Student_cast : string -> JsValue -> option JsValue;
  (** schema validation run by [save()]; documents are held in the form the
      schema casts them to *)
  Student_validate : Student.t -> bool;
  Batch_validate : Batch.t -> bool;
  (** [.populate(...)] chains: references replaced by the documents they
      point to *)
  Student_populate : Db.t -> list PopulateOpt -> Student.t -> Student.t;
  Batch_populate : Db.t -> list PopulateOpt -> Batch.t -> JsValue
}.

(** ** Responses *)

Inductive Payload : Type :=
| Message (m : string)                               (* { message } *)
| Error (e : string)                                 (* { error } *)
| MessageError (m : string) (e : Exn.t)              (* { message, error } *)
| StudentDoc (s : Student.t)                         (* the document itself *)
| StudentArray (l : list Student.t)                  (* the array itself *)
| MessageStudent (m : string) (s : Student.t)        (* { message, student } *)
| MessageData (m : string) (l : list Student.t)      (* { message, data } *)
| BatchArray (l : list JsValue).                     (* the array itself *)

Record Response : Type := mkResponse { status : nat; body : Payload }.

(** [res.status(code).json(payload)] *)
Definition json (code : nat) (payload : Payload) : Response :=
  mkResponse code payload.

(** ** Collection operations *)

Section Collections.
Context {odm : Odm}.

(** [Model.findById(o)] on the students collection. *)
Definition Student_findById (o : ObjectId) (l : list Student.t)
  : option Student.t :=
  find (fun s => Student._id s =? o) l.

Definition Batch_findById (o : ObjectId) (l : list Batch.t)
  : option Batch.t :=
  find (fun b => Batch._id b =? o) l.

(** The cast of an array of values compared with [_id]; the first value
    that is not an identifier raises [CastError]. *)
Fixpoint castObjectIds (vs : list JsValue) : Try (list ObjectId) :=
  match vs with
  | [] => ret []
  | v :: r =>
      o <- orThrow CastError (ObjectId_new v) ;;
      os <- castObjectIds r ;;
      ret (o :: os)
  end.

(** The filter [{ _id: { $in: ids } }]. *)
Definition id_in (ids : list ObjectId) (s : Student.t) : bool :=
  existsb (String.eqb (Student._id s)) ids.

(** [Student.countDocuments({ _id: { $in: vs } })] *)
Definition Student_countDocuments_id_in (vs : list JsValue)
    (l : list Student.t) : Try nat :=
  ids <- castObjectIds vs ;;
  ret (List.length (filter (id_in ids) l)).

(** [$addToSet]: the value is appended unless an equal element is there;
    a missing array is created. *)
Definition addToSet (m : Marker.t) (bc : option (list Marker.t))
  : option (list Marker.t) :=
  match bc with
  | None => Some [m]
  | Some l => if existsb (Marker.eqb m) l then Some l else Some (l ++ [m])
  end.

(** [updateOne({ _id: o }, { $addToSet: { batch_creation: m } })]: the
    first document with that [_id] is updated, none when there is no
    match. *)
Fixpoint updateOne_addToSet (o : ObjectId) (m : Marker.t)
    (l : list Student.t) : list Student.t :=
  match l with
  | [] => []
  | s :: r =>
      if Student._id s =? o
      then Student.with_batch_creation
             (addToSet m (Student.batch_creation s)) s :: r
      else s :: updateOne_addToSet o m r
  end.

(** One element of [bulkOps]:
    [{ updateOne: { filter: { _id }, update: { $addToSet:
       { batch_creation: { subject_id, status } } } } }]. *)
Record UpdateOne : Type := mkUpdateOne {
  filter__id : JsValue;
  addToSet_subject_id : JsValue;
  addToSet_status : bool
}.

(** The operations are cast against the schema before any is sent. *)
Fixpoint castBulkOps (ops : list UpdateOne)
  : Try (list (ObjectId * Marker.t)) :=
  match ops with
  | [] => ret []
  | op :: r =>
      o <- orThrow CastError (ObjectId_new (filter__id op)) ;;
      sid <- orThrow CastError (ObjectId_new (addToSet_subject_id op)) ;;
      rest <- castBulkOps r ;;
      ret ((o, Marker.mk sid (addToSet_status op)) :: rest)
  end.

Definition applyBulkOps (ops : list (ObjectId * Marker.t))
    (l : list Student.t) : list Student.t :=
  fold_left (fun acc op => updateOne_addToSet (fst op) (snd op) acc) ops l.

(** [new Batch({...})]: the reference fields are cast; a document with a
    field that could not be cast is rejected by [save()]. *)
Fixpoint castRefs (vs : list JsValue) : option (list ObjectId) :=
  match vs with
  | [] => Some []
  | v :: r =>
      match ObjectId_new v, castRefs r with
      | Some o, Some os => Some (o :: os)
      | _, _ => None
      end
  end.
End Collections.

(** A multi-document transaction.  Writes that carry the session go to
    [view]; [snapshot] is the database as it was when the transaction
    started. *)
Module Session.
Record t : Type := mk { snapshot : Db.t; view : Db.t }.

Definition startTransaction (db : Db.t) : t := mk db db.
Definition abortTransaction (s : t) : Db.t := snapshot s.
Definition commitTransaction (s : t) : Db.t := view s.
Definition write (db : Db.t) (s : t) : t := mk (snapshot s) db.
End Session.

(** ** src/controllers/batchController.js *)

(** [req.body] of [createBatch], destructured; a missing property is
    [JUndefined]. *)
Record CreateBatchBody : Type := mkCreateBatchBody {
  batch_name : JsValue;
  batch_image : JsValue;
  subject_id : JsValue;
  class_id : JsValue;
  teacher_id : JsValue;
  students : JsValue;
  date : JsValue;
  type_of_batch : JsValue
}.

(** [req.user], set by the authentication middleware. *)
Record User : Type := mkUser { user_role : JsValue }.

Section BatchController.
Context {odm : Odm}.

(** [new Batch({ batch_name, ..., type_of_batch })]; [fresh] is the
    [_id] the ODM generates for the new document. *)
Definition Batch_new (fresh : ObjectId) (body : CreateBatchBody)
    (roster : list JsValue) : option Batch.t :=
  match ObjectId_new (subject_id body), ObjectId_new (class_id body),
        ObjectId_new (teacher_id body), castRefs roster with
  | Some sid, Some cid, Some tid, Some ids =>
      Some (Batch.mk fresh (batch_name body) (batch_image body) sid cid tid
              ids (date body) (type_of_batch body))
  | _, _, _, _ => None
  end.

(** [newBatch.save({ session })] *)
Definition Batch_save (newBatch : option Batch.t) (session : Session.t)
  : Try Session.t :=
  match newBatch with
  | Some b =>
      if Batch_validate b
      then
        let db := Session.view session in
        ret (Session.write (Db.with_batches (Db.batches db ++ [b]) db)
               session)
      else throw ValidationError
  | None => throw ValidationError
  end.

(** [Student.bulkWrite(bulkOps, { session })] *)
Definition Student_bulkWrite (bulkOps : list UpdateOne)
    (session : Session.t) : Try Session.t :=
  ops <- castBulkOps bulkOps ;;
  let db := Session.view session in
  ret (Session.write (Db.with_students (applyBulkOps ops (Db.students db)) db)
         session).

(** The [try] block of [createBatch]; every exit has ended the
    transaction. *)
Definition createBatch_try (session : Session.t) (body : CreateBatchBody)
    (fresh : ObjectId) : Try (Response * Db.t) :=
  if falsy (batch_name body) || falsy (subject_id body)
     || falsy (class_id body) || falsy (teacher_id body)
     || falsy (students body) || falsy (date body)
     || falsy (type_of_batch body)
  then
    ret (json 400 (Message "All fields are required"),
         Session.abortTransaction session)
  else
    match students body with
    | JArr roster =>
        validStudentsCount <-
          Student_countDocuments_id_in roster
            (Db.students (Session.snapshot session)) ;;
        if negb (validStudentsCount =? List.length roster)%nat
        then throw (Error_new "One or more student IDs are invalid")
        else
          let newBatch := Batch_new fresh body roster in
          session1 <- Batch_save newBatch session ;;
          let bulkOps :=
            map (fun studentId =>
                   mkUpdateOne studentId (subject_id body) true) roster in
          session2 <- Student_bulkWrite bulkOps session1 ;;
          ret (json 201 (Message "Batch created successfully"),
               Session.commitTransaction session2)
    | _ =>
        ret (json 400 (Message "'students' must be an array of student IDs"),
             Session.abortTransaction session)
    end.

Definition createBatch (db : Db.t) (body : CreateBatchBody)
    (fresh : ObjectId) : Response * Db.t :=
  let session := Session.startTransaction db in
  match createBatch_try session body fresh with
  | inr r => r
  | inl error =>
      let db' := Session.abortTransaction session in
      if Exn.name error =? "CastError"
      then (json 400 (Error "Invalid ID format"), db')
      else
        (json 500
           (Error (if Exn.message error =? "" then "Server error"
                   else Exn.message error)),
         db')
  end.

Definition populate_batches : list PopulateOpt :=
  [ Path "students"; Path "subject_id"; Path "class_id";
    Nested "teacher_id" (PathSelect "user_id" "name email") ].

(** [Batch.find({ teacher_id: teacherId })] *)
Definition Batch_find_teacher_id (teacherId : string) (l : list Batch.t)
  : Try (list Batch.t) :=
  t <- orThrow CastError (ObjectId_new (JStr teacherId)) ;;
  ret (filter (fun b => Batch.teacher_id b =? t) l).

Definition getBatchesByTeacherId (db : Db.t) (user : option User)
    (teacherId : string) : Response :=
  let attempt : Try Response :=
    u <- orThrow (TypeError "Cannot read properties of undefined") user ;;
    if negb (js_eqb (user_role u) (JStr "teacher"))
    then ret (json 403 (Message "Access denied: Not a teacher"))
    else
      batches <- Batch_find_teacher_id teacherId (Db.batches db) ;;
      match batches with
      | [] => ret (json 404 (Message "No batches found for this teacher"))
      | _ :: _ =>
          ret (json 200
                 (BatchArray (map (Batch_populate db populate_batches)
                                batches)))
      end in
  match attempt with
  | inr r => r
  | inl error => json 500 (MessageError "Server error" error)
  end.

Definition populate_batches_of_student : list PopulateOpt :=
  [ Nested "teacher_id" (PathSelect "user_id" "name email");
    Path "subject_id"; Path "class_id";
    Nested "students" (PathSelect "user_id" "name email") ].

(** [Batch.find({ students: studentId })]: the roster contains the id. *)
Definition Batch_find_students (studentId : string) (l : list Batch.t)
  : Try (list Batch.t) :=
  s <- orThrow CastError (ObjectId_new (JStr studentId)) ;;
  ret (filter (fun b => existsb (String.eqb s) (Batch.students b)) l).

Definition getBatchesByStudentId (db : Db.t) (studentId : string)
  : Response :=
  let attempt : Try Response :=
    batches <- Batch_find_students studentId (Db.batches db) ;;
    ret (json 200
           (BatchArray (map (Batch_populate db populate_batches_of_student)
                          batches))) in
  match attempt with
  | inr r => r
  | inl error => json 500 (MessageError "Server error" error)
  end.
End BatchController.

(** ** src/controllers/studentController.js *)

Module CreateStudentBody.
Record t : Type := mk {
  auth_id : JsValue;
  user_id : JsValue;
  student_id : JsValue;
  role : JsValue
}.
End CreateStudentBody.

(** [req.body] of [updateStudent]: [class_id] and the properties of
    [updateData] that the handler reads. *)
Module UpdateStudentBody.
Record t : Type := mk {
  class_id : JsValue;
  auth_id : JsValue;
  student_id : JsValue;
  user_id : JsValue;
  subscribed_Package : JsValue;
  is_paid : JsValue;
  subscription_id : JsValue;
  payment_id : JsValue;
  last_online : JsValue;
  phone_number : JsValue
}.
End UpdateStudentBody.

Section StudentController.
Context {odm : Odm}.

(** [["student", "admin"].includes(role)] *)
Definition role_recognized (role : JsValue) : bool :=
  existsb (js_eqb role) [JStr "student"; JStr "admin"].

(** [Student.findOne({ $or: [{ auth_id }, { student_id }] })] *)
Definition Student_findOne_auth_or_student (auth_id student_id : JsValue)
    (l : list Student.t) : Try (option Student.t) :=
  sid <- orThrow CastError (ObjectId_new student_id) ;;
  ret (find (fun s => js_eqb (Student.auth_id s) auth_id
                      || js_eqb (Student.student_id s) (JOid sid)) l).

(** [new Student({ auth_id, student_id, user_id, role })] *)
Definition Student_new (fresh : ObjectId)
    (auth_id : JsValue) (student_id user_id : ObjectId) (role : JsValue)
  : Student.t :=
  let d := Student_defaults in
  Student.mk fresh auth_id (JOid student_id) (JOid user_id) role
    (Student.class d) (Student.subject_id d) (Student.board_id d)
    (Student.subscribed_Package d) (Student.is_paid d)
    (Student.payment_id d) (Student.subscription_id d)
    (Student.phone_number d) (Student.last_online d)
    (Student.created_at d) (Student.batch_creation d).

(** [newStudent.save()]: the document is inserted. *)
Definition Student_insert (s : Student.t) (db : Db.t) : Try Db.t :=
  if Student_validate s
  then ret (Db.with_students (Db.students db ++ [s]) db)
  else throw ValidationError.

Definition createStudent (db : Db.t) (body : CreateStudentBody.t)
    (fresh : ObjectId) : Response * Db.t :=
  let attempt : Try (Response * Db.t) :=
    if negb (role_recognized (CreateStudentBody.role body))
    then ret (json 400 (Error "Invalid role. Must be student or admin."), db)
    else if negb (ObjectId_isValid (CreateStudentBody.student_id body))
    then ret (json 400 (Error "Invalid student_id format."), db)
    else
      existingStudent <-
        Student_findOne_auth_or_student (CreateStudentBody.auth_id body)
          (CreateStudentBody.student_id body) (Db.students db) ;;
      match existingStudent with
      | Some _ =>
          ret (json 409
                 (Error "Student with this auth_id or student_id already exists."),
               db)
      | None =>
          sid <- orThrow BSONError
                   (ObjectId_constructor (CreateStudentBody.student_id body)) ;;
          uid <- orThrow BSONError
                   (ObjectId_constructor (CreateStudentBody.user_id body)) ;;
          let newStudent :=
            Student_new fresh (CreateStudentBody.auth_id body) sid uid
              (CreateStudentBody.role body) in
          db' <- Student_insert newStudent db ;;
          ret (json 201
                 (MessageStudent "Student created successfully" newStudent),
               db')
      end in
  match attempt with
  | inr r => r
  | inl _ => (json 500 (Error "Internal server error"), db)
  end.

Definition populate_student : list PopulateOpt :=
  [ PathSelect "user_id" "name email";
    PathSelect "class" "className classLevel";
    PathSelect "subject_id" "subject_name";
    PathSelect "board_id" "name" ].

Definition getStudentById (db : Db.t) (id : string) : Response :=
  if negb (ObjectId_isValid (JStr id))
  then json 400 (Error "Invalid student ID format.")
  else
    let attempt : Try Response :=
      o <- orThrow CastError (ObjectId_new (JStr id)) ;;
      match Student_findById o (Db.students db) with
      | None => ret (json 404 (Error "Student not found."))
      | Some student =>
          ret (json 200
                 (StudentDoc (Student_populate db populate_student student)))
      end in
    match attempt with
    | inr r => r
    | inl _ => json 500 (Error "Internal server error.")
    end.

(** The filter [{ student_id: o }]. *)
Definition student_id_is (o : ObjectId) (s : Student.t) : bool :=
  js_eqb (Student.student_id s) (JOid o).

(** The collection without its first document that satisfies [p]. *)
Fixpoint remove_first (p : Student.t -> bool) (l : list Student.t)
  : list Student.t :=
  match l with
  | [] => []
  | s :: r => if p s then r else s :: remove_first p r
  end.

(** [Student.findOneAndDelete({ student_id: id })] *)
Definition Student_findOneAndDelete_student_id (id : string)
    (l : list Student.t) : Try (option Student.t * list Student.t) :=
  o <- orThrow CastError (ObjectId_new (JStr id)) ;;
  ret (find (student_id_is o) l, remove_first (student_id_is o) l).

Definition deleteStudent (db : Db.t) (id : string) : Response * Db.t :=
  if negb (ObjectId_isValid (JStr id))
  then (json 400 (Error "Invalid student ID format."), db)
  else
    let attempt : Try (Response * Db.t) :=
      r <- Student_findOneAndDelete_student_id id (Db.students db) ;;
      match fst r with
      | None => ret (json 404 (Error "Student not found"), db)
      | Some _ =>
          ret (json 200 (Message "Student deleted successfully"),
               Db.with_students (snd r) db)
      end in
    match attempt with
    | inr r => r
    | inl _ => (json 500 (Error "Internal server error"), db)
    end.

(** [v] when the stored document has the path, else the schema's
    default. *)
Definition or_default (v default : JsValue) : JsValue :=
  match v with
  | JUndefined => default
  | _ => v
  end.

(** The document the ODM builds from a stored one when it loads it: a path
    that the stored document lacks has the schema's default (an array path
    the empty array). *)
Definition Student_init (stored : Student.t) : Student.t :=
  let d := Student_defaults in
  Student.mk (Student._id stored)
    (or_default (Student.auth_id stored) (Student.auth_id d))
    (or_default (Student.student_id stored) (Student.student_id d))
    (or_default (Student.user_id stored) (Student.user_id d))
    (or_default (Student.role stored) (Student.role d))
    (or_default (Student.class stored) (Student.class d))
    (or_default (Student.subject_id stored) (Student.subject_id d))
    (or_default (Student.board_id stored) (Student.board_id d))
    (or_default (Student.subscribed_Package stored)
       (Student.subscribed_Package d))
    (or_default (Student.is_paid stored) (Student.is_paid d))
    (or_default (Student.payment_id stored) (Student.payment_id d))
    (or_default (Student.subscription_id stored) (Student.subscription_id d))
    (or_default (Student.phone_number stored) (Student.phone_number d))
    (or_default (Student.last_online stored) (Student.last_online d))
    (or_default (Student.created_at stored) (Student.created_at d))
    (match Student.batch_creation stored with
     | None => Student.batch_creation d
     | Some l => Some l
     end).

(** [Student.findOne({ user_id: studentId })]: the first match, loaded. *)
Definition Student_findOne_user_id (studentId : string)
    (l : list Student.t) : Try (option Student.t) :=
  o <- orThrow CastError (ObjectId_new (JStr studentId)) ;;
  ret (option_map Student_init
         (find (fun s => js_eqb (Student.user_id s) (JOid o)) l)).

(** [Class.findById(class_id)] *)
Definition Class_findById (class_id : JsValue) (l : list Class_.t)
  : Try (option Class_.t) :=
  o <- orThrow CastError (ObjectId_new class_id) ;;
  ret (find (fun c => Class_._id c =? o) l).

(** The stored document with the [_id] of [s] is replaced by [s]. *)
Fixpoint replace_by_id (s : Student.t) (l : list Student.t)
  : list Student.t :=
  match l with
  | [] => []
  | x :: r =>
      if Student._id x =? Student._id s then s :: r
      else x :: replace_by_id s r
  end.

(** [student.save()] on a document that was loaded from the collection:
    the assigned paths and the paths that were given their default when
    the document was loaded are written, so the stored document becomes
    [s]. *)
Definition Student_save (s : Student.t) (db : Db.t) : Try Db.t :=
  if Student_validate s
  then ret (Db.with_students (replace_by_id s (Db.students db)) db)
  else throw ValidationError.

(** [{ _id: classInfo._id, name: classInfo.className,
       classLevel: classInfo.classLevel }] *)
Definition class_snapshot (classInfo : Class_.t) : JsValue :=
  JObj [ ("_id", JOid (Class_._id classInfo));
         ("name", Class_.className classInfo);
         ("classLevel", Class_.classLevel classInfo) ].

(** Modelled from the spec: the types of four paths of the Student schema
    ([models/studentModel.js] is not among the sources): [student_id],
    [user_id] and [subscribed_Package] are references, [is_paid] is a
    boolean.  The cast of the remaining paths is left to [Student_cast]. *)

(** The cast of a value assigned to a reference path. *)
Definition castReference (v : JsValue) : option JsValue :=
  option_map JOid (ObjectId_new v).

(** The ODM's cast to Boolean. *)
Definition castBoolean (v : JsValue) : option JsValue :=
  match v with
  | JBool b => Some (JBool b)
  | JStr s =>
      if (s =? "true") || (s =? "1") || (s =? "yes") then Some (JBool true)
      else if (s =? "false") || (s =? "0") || (s =? "no")
           then Some (JBool false)
           else None
  | JNum n =>
      if (n =? 1)%Z then Some (JBool true)
      else if (n =? 0)%Z then Some (JBool false)
      else None
  | JNull => Some JNull
  | JUndefined => Some JUndefined
  | JOid _ | JArr _ | JObj _ => None
  end.

(** [student.f = updateData.f || student.f]: the request's value, cast to
    the type of the path, when it is truthy; else the value read from the
    document, which is already cast.  [None] when the cast fails. *)
Definition assign_or (cast : JsValue -> option JsValue)
    (requested prior : JsValue) : option JsValue :=
  if truthy requested then cast requested else Some prior.

(** [student.f = updateData.f !== undefined ? updateData.f : student.f] *)
Definition assign_defined (cast : JsValue -> option JsValue)
    (requested prior : JsValue) : option JsValue :=
  match requested with
  | JUndefined => Some prior
  | _ => cast requested
  end.

(** The nine assignments of "Update other fields".  An assignment whose
    cast fails invalidates the document, which [save()] then rejects. *)
Definition assign_updateData (updateData : UpdateStudentBody.t)
    (student : Student.t) : Try Student.t :=
  auth_id <- orThrow ValidationError
    (assign_or (Student_cast "auth_id")
       (UpdateStudentBody.auth_id updateData)
       (Student.auth_id student)) ;;
  student_id <- orThrow ValidationError
    (assign_or castReference (UpdateStudentBody.student_id updateData)
       (Student.student_id student)) ;;
  user_id <- orThrow ValidationError
    (assign_or castReference (UpdateStudentBody.user_id updateData)
       (Student.user_id student)) ;;
  subscribed_Package <- orThrow ValidationError
    (assign_or castReference (UpdateStudentBody.subscribed_Package updateData)
       (Student.subscribed_Package student)) ;;
  is_paid <- orThrow ValidationError
    (assign_defined castBoolean (UpdateStudentBody.is_paid updateData)
       (Student.is_paid student)) ;;
  subscription_id <- orThrow ValidationError
    (assign_or (Student_cast "subscription_id")
       (UpdateStudentBody.subscription_id updateData)
       (Student.subscription_id student)) ;;
  payment_id <- orThrow ValidationError
    (assign_or (Student_cast "payment_id")
       (UpdateStudentBody.payment_id updateData)
       (Student.payment_id student)) ;;
  last_online <- orThrow ValidationError
    (assign_or (Student_cast "last_online")
       (UpdateStudentBody.last_online updateData)
       (Student.last_online student)) ;;
  phone_number <- orThrow ValidationError
    (assign_or (Student_cast "phone_number")
       (UpdateStudentBody.phone_number updateData)
       (Student.phone_number student)) ;;
  ret (Student.mk (Student._id student) auth_id student_id user_id
         (Student.role student) (Student.class student)
         (Student.subject_id student) (Student.board_id student)
         subscribed_Package is_paid payment_id subscription_id phone_number
         last_online (Student.created_at student)
         (Student.batch_creation student)).

(** From "Update other fields" to the response. *)
Definition updateStudent_finish (db : Db.t) (updateData : UpdateStudentBody.t)
    (student : Student.t) : Try (Response * Db.t) :=
  updatedStudent <- assign_updateData updateData student ;;
  db' <- Student_save updatedStudent db ;;
  ret (json 200 (MessageStudent "Student updated successfully" updatedStudent),
       db').

Definition updateStudent (db : Db.t) (studentId : string)
    (body : UpdateStudentBody.t) : Response * Db.t :=
  let class_id := UpdateStudentBody.class_id body in
  let attempt : Try (Response * Db.t) :=
    found <- Student_findOne_user_id studentId (Db.students db) ;;
    match found with
    | None => ret (json 404 (Error "Student not found"), db)
    | Some student =>
        if truthy class_id
        then
          classInfo <- Class_findById class_id (Db.classes db) ;;
          match classInfo with
          | None => ret (json 404 (Error "Class not found"), db)
          | Some c =>
              updateStudent_finish db body
                (Student.with_class (class_snapshot c) student)
          end
        else updateStudent_finish db body student
    end in
  match attempt with
  | inr r => r
  | inl _ => (json 500 (Error "Internal server error"), db)
  end.

(** [Subject.exists({ _id: subjectId })] *)
Definition Subject_exists (subjectId : string) (l : list Subject.t)
  : Try bool :=
  o <- orThrow CastError (ObjectId_new (JStr subjectId)) ;;
  ret (existsb (fun x => Subject._id x =? o) l).

(** [Package.find({ subject_id: subjectId }).select("_id")] then
    [.map(pkg => pkg._id)] *)
Definition Package_find_subject_id (subjectId : string)
    (l : list Package.t) : Try (list ObjectId) :=
  o <- orThrow CastError (ObjectId_new (JStr subjectId)) ;;
  ret (map Package._id
         (filter (fun p => existsb (String.eqb o) (Package.subject_id p)) l)).

(** [{ subscribed_Package: { $in: packageIds } }] *)
Definition subscribed_in (packageIds : list ObjectId) (s : Student.t)
  : bool :=
  match Student.subscribed_Package s with
  | JOid p => existsb (String.eqb p) packageIds
  | _ => false
  end.

(** [{ is_paid: true }] *)
Definition is_paid_true (s : Student.t) : bool :=
  js_eqb (Student.is_paid s) (JBool true).

(** [{ $elemMatch: { subject_id: subjectId, status: true } }] on the
    [batch_creation] array; a missing array matches nothing. *)
Definition elemMatch_subject_true (subjectId : ObjectId) (s : Student.t)
  : bool :=
  match Student.batch_creation s with
  | None => false
  | Some l =>
      existsb (fun m => (Marker.subject_id m =? subjectId)
                        && Bool.eqb (Marker.status m) true) l
  end.

(** The three alternatives of [$or]. *)
Definition batch_creation_absent (s : Student.t) : bool :=
  match Student.batch_creation s with None => true | Some _ => false end.

Definition batch_creation_size0 (s : Student.t) : bool :=
  match Student.batch_creation s with Some [] => true | _ => false end.

Definition eligibility_filter (packageIds : list ObjectId)
    (subjectId : ObjectId) (s : Student.t) : bool :=
  subscribed_in packageIds s
  && is_paid_true s
  && (batch_creation_absent s
      || batch_creation_size0 s
      || negb (elemMatch_subject_true subjectId s)).

Definition populate_eligible : list PopulateOpt :=
  [ PathSelect "user_id" "name email phone_number";
    PathSelect "subscribed_Package" "package_name" ].

Definition getStudentsforBatchBySubject (db : Db.t) (subjectId : string)
  : Response :=
  let attempt : Try Response :=
    if negb (ObjectId_isValid (JStr subjectId))
    then ret (json 400 (Error "Invalid subject ID"))
    else
      subjectExists <- Subject_exists subjectId (Db.subjects db) ;;
      if negb subjectExists
      then ret (json 404 (Error "Subject not found"))
      else
        packageIds <- Package_find_subject_id subjectId (Db.packages db) ;;
        match packageIds with
        | [] => ret (json 404 (Message "No packages found for this subject"))
        | _ :: _ =>
            sid <- orThrow CastError (ObjectId_new (JStr subjectId)) ;;
            let students :=
              map (Student_populate db populate_eligible)
                (filter (eligibility_filter packageIds sid)
                   (Db.students db)) in
            match students with
            | [] =>
                ret (json 404
                       (Message "No eligible students found for this subject"))
            | _ :: _ =>
                ret (json 200
                       (MessageData "Students retrieved successfully"
                          students))
            end
        end in
  match attempt with
  | inr r => r
  | inl _ => json 500 (Error "Internal server error")
  end.
End StudentController.

(** ** A concrete ODM, to run the handlers on data

    The identifier functions follow the library on the values a JSON body
    can carry: an identifier is spelled by 24 hexadecimal digits, in either
    case; the cast lets [null] pass and rejects a number, while the validity
    test and the constructor accept a number; the constructor generates an
    identifier from the time when it is handed none.  Every document passes
    validation, the paths whose type the specification does not give keep
    what they are assigned, and population leaves a student as it is and
    renders a batch as its [_id]. *)

Definition is_hex_digit (c : ascii) : bool :=
  let n := nat_of_ascii c in
  ((48 <=? n) && (n <=? 57) || (97 <=? n) && (n <=? 102)
   || (65 <=? n) && (n <=? 70))%nat.

Definition is_hex24 (s : string) : bool :=
  (String.length s =? 24)%nat && forallb is_hex_digit (list_ascii_of_string s).

Definition lower_hex (c : ascii) : ascii :=
  let n := nat_of_ascii c in
  if ((65 <=? n) && (n <=? 70))%nat then ascii_of_nat (n + 32) else c.

(** The identifier that a string spells. *)
Definition hex24 (s : string) : option ObjectId :=
  if is_hex24 s
  then Some (string_of_list_ascii (map lower_hex (list_ascii_of_string s)))
  else None.

(** [v.toString()], where it can spell an identifier: a string is itself,
    an array of one element is that element's string; the string of a
    number, of a boolean or of a plain object never has 24 hexadecimal
    digits. *)
Fixpoint spelled (v : JsValue) : option string :=
  match v with
  | JStr s => Some s
  | JOid o => Some o
  | JArr [e] => spelled e
  | _ => None
  end.

Definition spelled_id (v : JsValue) : option ObjectId :=
  match spelled v with
  | Some s => hex24 s
  | None => None
  end.

(** [v[k]] of a plain object. *)
Definition own (k : string) (fields : list (string * JsValue)) : JsValue :=
  match find (fun kv => fst kv =? k) fields with
  | Some kv => snd kv
  | None => JUndefined
  end.

(** [null], as a reference: the identifier of no document. *)
Definition null_reference : ObjectId := "".

(** The cast: [null] passes; an ObjectId is itself; an object with a truthy
    [_id] is cast through it; anything else through its string. *)
Definition hex_ObjectId_new (v : JsValue) : option ObjectId :=
  match v with
  | JNull | JUndefined => Some null_reference
  | JOid o => Some o
  | JObj fields =>
      if truthy (own "_id" fields) then spelled_id (own "_id" fields)
      else None
  | _ => spelled_id v
  end.

Definition hex_digit (n : Z) : ascii :=
  ascii_of_nat (Z.to_nat (if (n <? 10)%Z then 48 + n else 87 + n)%Z).

Fixpoint hex_digits (k : nat) (n : Z) : list ascii :=
  match k with
  | O => []
  | S k' => hex_digits k' (n / 16)%Z ++ [hex_digit (n mod 16)%Z]
  end.

(** The identifier generated at [time]; the random bytes and the counter
    are zero here. *)
Definition generated (time : Z) : ObjectId :=
  String.append
    (string_of_list_ascii (hex_digits 8 (time mod 4294967296)%Z))
    "0000000000000000".

(** The clock of this instance. *)
Definition now : Z := 1728000000.

(** The constructor: it generates when it is handed nothing or a number,
    reads a string of 24 hexadecimal digits, takes an object through its
    [id] string, and throws otherwise. *)
Definition hex_ObjectId_constructor (v : JsValue) : option ObjectId :=
  match v with
  | JNull | JUndefined => Some (generated now)
  | JNum n => Some (generated n)
  | JStr s => hex24 s
  | JOid o => Some o
  | JObj fields =>
      match own "id" fields with
      | JStr s => hex24 s
      | _ => None
      end
  | JBool _ | JArr _ => None
  end.

(** The validity test: the constructor does not throw, on a value other
    than [null]. *)
Definition hex_ObjectId_isValid (v : JsValue) : bool :=
  match v with
  | JNull | JUndefined => false
  | _ =>
      match hex_ObjectId_constructor v with
      | Some _ => true
      | None => false
      end
  end.

Definition blank_student : Student.t :=
  Student.mk "" JUndefined JUndefined JUndefined JUndefined JUndefined
    (JArr []) JUndefined JUndefined (JBool false) JUndefined JUndefined
    JUndefined JUndefined JUndefined (Some []).

Definition hexOdm : Odm := {|
  ObjectId_isValid := hex_ObjectId_isValid;
  ObjectId_new := hex_ObjectId_new;
  ObjectId_constructor := hex_ObjectId_constructor;
  Student_defaults := blank_student;
  Student_cast := fun _ v => Some v;
  Student_validate := fun _ => true;
  Batch_validate := fun _ => true;
  Student_populate := fun _ _ s => s;
  Batch_populate := fun _ _ b => JObj [("_id", JOid (Batch._id b))]
|}.

Module Sample.
Definition alice_id : ObjectId := "a00000000000000000000001".
Definition bob_id : ObjectId := "a00000000000000000000002".
Definition carol_id : ObjectId := "a00000000000000000000003".
Definition maths : ObjectId := "c00000000000000000000001".
Definition physics : ObjectId := "c00000000000000000000002".
Definition gold : ObjectId := "d00000000000000000000001".
Definition teacher : ObjectId := "e00000000000000000000001".
Definition class9 : ObjectId := "f00000000000000000000009".
Definition batch1 : ObjectId := "b00000000000000000000001".
Definition batch2 : ObjectId := "b00000000000000000000002".

(** A paid subscriber of [gold], registered under identity [ext] and
    profile [usr]. *)
Definition student (id ext usr : ObjectId) (auth : string)
    (paid : bool) (bc : option (list Marker.t)) : Student.t :=
  Student.mk id (JStr auth) (JOid ext) (JOid usr) (JStr "student")
    JUndefined (JArr []) JUndefined (JOid gold) (JBool paid) JUndefined
    JUndefined JUndefined JUndefined JUndefined bc.

Definition alice : Student.t :=
  student alice_id "5a0000000000000000000001" "0a0000000000000000000001"
    "auth-alice" true (Some []).
Definition bob : Student.t :=
  student bob_id "5a0000000000000000000002" "0a0000000000000000000002"
    "auth-bob" true (Some [Marker.mk maths false]).
Definition carol : Student.t :=
  student carol_id "5a0000000000000000000003" "0a0000000000000000000003"
    "auth-carol" false None.

Definition db : Db.t :=
  Db.mk [alice; bob; carol] []
    [Subject.mk maths (JStr "Maths"); Subject.mk physics (JStr "Physics")]
    [Package.mk gold (JStr "Gold") [maths; physics]]
    [Class_.mk class9 (JStr "Nine") (JNum 9)].

Definition request (roster : list JsValue) : CreateBatchBody :=
  mkCreateBatchBody (JStr "Morning maths") JUndefined (JStr maths)
    (JStr class9) (JStr teacher) (JArr roster) (JStr "2024-10-01")
    (JStr "normal").

(** The database once the morning batch of [alice] and [bob] exists. *)
Definition db_with_batch : Db.t :=
  snd (@createBatch hexOdm db (request [JStr alice_id; JStr bob_id]) batch1).

Definition other_teacher : ObjectId := "e00000000000000000000002".

(** A registration request for a fourth person. *)
Definition dave_id : ObjectId := "a00000000000000000000004".
Definition dave (student_id role : string) : CreateStudentBody.t :=
  CreateStudentBody.mk (JStr "auth-dave") (JStr "0a0000000000000000000004")
    (JStr student_id) (JStr role).

(** An update that carries [is_paid: false], nothing else. *)
Definition unsubscribe : UpdateStudentBody.t :=
  UpdateStudentBody.mk JUndefined JUndefined JUndefined JUndefined JUndefined
    (JBool false) JUndefined JUndefined JUndefined JUndefined.
End Sample.

(** ** Vocabulary of the statements about createBatch *)

Section CreateBatchOutcome.
Context {odm : Odm}.

(** None of the seven tested fields is falsy. *)
Definition all_required (body : CreateBatchBody) : bool :=
  truthy (batch_name body) && truthy (subject_id body)
  && truthy (class_id body) && truthy (teacher_id body)
  && truthy (students body) && truthy (date body)
  && truthy (type_of_batch body).

(** The markers [createBatch] asks for: one per roster entry. *)
Definition roster_ops (ids : list ObjectId) (subject : ObjectId)
  : list (ObjectId * Marker.t) :=
  map (fun o => (o, Marker.mk subject true)) ids.

(** The database after a successful [createBatch]. *)
Definition batch_created (db : Db.t) (b : Batch.t) : Db.t :=
  Db.mk (applyBulkOps (roster_ops (Batch.students b) (Batch.subject_id b))
           (Db.students db))
        (Db.batches db ++ [b]) (Db.subjects db) (Db.packages db)
        (Db.classes db).

(** What [createBatch] returns, decided in the order of the source. *)
Definition createBatch_outcome (db : Db.t) (body : CreateBatchBody)
    (fresh : ObjectId) : Response * Db.t :=
  if negb (all_required body)
  then (json 400 (Message "All fields are required"), db)
  else
    match students body with
    | JArr roster =>
        match castRefs roster with
        | None => (json 400 (Error "Invalid ID format"), db)
        | Some ids =>
            if (List.length (filter (id_in ids) (Db.students db))
                =? List.length roster)%nat
            then
              match Batch_new fresh body roster with
              | Some b =>
                  if Batch_validate b
                  then (json 201 (Message "Batch created successfully"),
                        batch_created db b)
                  else (json 500 (Error "Validation failed"), db)
              | None => (json 500 (Error "Validation failed"), db)
              end
            else (json 500 (Error "One or more student IDs are invalid"), db)
        end
    | _ =>
        (json 400 (Message "'students' must be an array of student IDs"), db)
    end.

(** A request that passes every check of [createBatch]: the tested fields
    are present, [students] is an array of identifiers of stored students,
    no two alike, and the batch document [b] built from the request is
    accepted by the schema. *)
Definition valid_request (db : Db.t) (body : CreateBatchBody)
    (fresh : ObjectId) (roster : list JsValue) (b : Batch.t) : Prop :=
  all_required body = true
  /\ students body = JArr roster
  /\ Batch_new fresh body roster = Some b
  /\ Batch_validate b = true
  /\ NoDup (Batch.students b)
  /\ incl (Batch.students b) (map Student._id (Db.students db)).
End CreateBatchOutcome.

(** ** Vocabulary of the statements about the student directory *)

Section DirectoryVocabulary.
Context {odm : Odm}.

(** The ids of the packages that include [subject]. *)
Definition package_set (db : Db.t) (subject : ObjectId) : list ObjectId :=
  map Package._id
    (filter (fun p => existsb (String.eqb subject) (Package.subject_id p))
       (Db.packages db)).

(** Eligibility in the words of the specification: subscribed to a package
    of the set, paid, and the [batch_creation] array absent, or empty, or
    without an entry that has both the subject and [status: true]. *)
Definition eligible (packageIds : list ObjectId) (subject : ObjectId)
    (s : Student.t) : Prop :=
  (exists p, Student.subscribed_Package s = JOid p /\ In p packageIds)
  /\ Student.is_paid s = JBool true
  /\ (Student.batch_creation s = None
      \/ Student.batch_creation s = Some []
      \/ exists l, Student.batch_creation s = Some l
                   /\ forall m, In m l ->
                        ~ (Marker.subject_id m = subject
                           /\ Marker.status m = true)).

(** The stored document that the query of [updateStudent] finds for the
    route parameter; the handler works on what the ODM loads from it,
    [Student_init] of it. *)
Definition found_student (db : Db.t) (studentId : string)
    (student : Student.t) : Prop :=
  exists u, ObjectId_new (JStr studentId) = Some u
            /\ find (fun s => js_eqb (Student.user_id s) (JOid u))
                 (Db.students db) = Some student.

(** The document [updateStudent] assigns the request's fields to: the
    loaded student, with the class snapshot when [class_id] is given and
    names a stored class. *)
Definition reclassed (db : Db.t) (class_id : JsValue)
    (student student' : Student.t) : Prop :=
  (truthy class_id = false /\ student' = student)
  \/ (truthy class_id = true
      /\ exists o c, ObjectId_new class_id = Some o
                     /\ find (fun c => Class_._id c =? o) (Db.classes db)
                        = Some c
                     /\ student' = Student.with_class (class_snapshot c)
                                     student).

(** [after] agrees with [before] on every field the request omits, and on
    the fields no request can set. *)
Definition omitted_kept (body : UpdateStudentBody.t)
    (before after : Student.t) : Prop :=
  (UpdateStudentBody.class_id body = JUndefined ->
   Student.class after = Student.class before)
  /\ (UpdateStudentBody.auth_id body = JUndefined ->
      Student.auth_id after = Student.auth_id before)
  /\ (UpdateStudentBody.student_id body = JUndefined ->
      Student.student_id after = Student.student_id before)
  /\ (UpdateStudentBody.user_id body = JUndefined ->
      Student.user_id after = Student.user_id before)
  /\ (UpdateStudentBody.subscribed_Package body = JUndefined ->
      Student.subscribed_Package after = Student.subscribed_Package before)
  /\ (UpdateStudentBody.is_paid body = JUndefined ->
      Student.is_paid after = Student.is_paid before)
  /\ (UpdateStudentBody.subscription_id body = JUndefined ->
      Student.subscription_id after = Student.subscription_id before)
  /\ (UpdateStudentBody.payment_id body = JUndefined ->
      Student.payment_id after = Student.payment_id before)
  /\ (UpdateStudentBody.last_online body = JUndefined ->
      Student.last_online after = Student.last_online before)
  /\ (UpdateStudentBody.phone_number body = JUndefined ->
      Student.phone_number after = Student.phone_number before)
  /\ Student._id after = Student._id before
  /\ Student.role after = Student.role before
  /\ Student.subject_id after = Student.subject_id before
  /\ Student.board_id after = Student.board_id before
  /\ Student.created_at after = Student.created_at before
  /\ Student.batch_creation after = Student.batch_creation before.
End DirectoryVocabulary.

(** ** Further handlers of the two controllers *)

(** Property access [v[k]] on a plain object; anything else has no own
    properties here. *)
Fixpoint assoc_get (k : string) (fields : list (string * JsValue))
  : JsValue :=
  match fields with
  | [] => JUndefined
  | (k', v) :: r => if k' =? k then v else assoc_get k r
  end.

Definition js_get (k : string) (v : JsValue) : JsValue :=
  match v with
  | JObj fields => assoc_get k fields
  | _ => JUndefined
  end.

(** [v.length] *)
Definition js_length (v : JsValue) : JsValue :=
  match v with
  | JArr l => JNum (Z.of_nat (List.length l))
  | JStr s => JNum (Z.of_nat (String.length s))
  | _ => js_get "length" v
  end.

(** [obj[k] = x] on a plain object: the property is overwritten where it
    stands, or added last. *)
Fixpoint assoc_set (k : string) (x : JsValue)
    (fields : list (string * JsValue)) : list (string * JsValue) :=
  match fields with
  | [] => [(k, x)]
  | (k', v) :: r =>
      if k' =? k then (k, x) :: r else (k', v) :: assoc_set k x r
  end.

Definition js_set (k : string) (x : JsValue) (v : JsValue) : JsValue :=
  match v with
  | JObj fields => JObj (assoc_set k x fields)
  | _ => v
  end.

Section FurtherHandlers.
Context {odm : Odm}.

(** [Student.findOne({ auth_id: authId })] *)
Definition Student_findOne_auth_id (authId : string) (l : list Student.t)
  : option Student.t :=
  find (fun s => js_eqb (Student.auth_id s) (JStr authId)) l.

(** [auth_id_header] is [req.headers['auth_id']]; no call of the [try]
    block raises. *)
Definition getStudentByAuthId (db : Db.t) (auth_id_header : option string)
  : Response :=
  match auth_id_header with
  | None => json 400 (Message "auth_id header is required")
  | Some authId =>
      if falsy (JStr authId)
      then json 400 (Message "auth_id header is required")
      else
        match Student_findOne_auth_id authId (Db.students db) with
        | None => json 404 (Message "Student not found")
        | Some student =>
            json 200
              (MessageStudent "Student retrieved successfully by auth_id"
                 (Student_populate db populate_student student))
        end
  end.

(** [Student.countDocuments({ is_paid: b })] *)
Definition Student_countDocuments_is_paid (b : bool) (l : list Student.t)
  : nat :=
  List.length (filter (fun s => js_eqb (Student.is_paid s) (JBool b)) l).

(** The response is the status and the JSON body. *)
Definition getStudentSubscriptionStats (db : Db.t) : nat * JsValue :=
  let subscribedCount :=
    Student_countDocuments_is_paid true (Db.students db) in
  let notSubscribedCount :=
    Student_countDocuments_is_paid false (Db.students db) in
  let responseData :=
    JObj [ ("subscribed", JNum (Z.of_nat subscribedCount));
           ("notSubscribed", JNum (Z.of_nat notSubscribedCount)) ] in
  (200%nat,
   JObj [ ("message",
           JStr "Student subscription statistics fetched successfully");
          ("data", responseData) ]).

Definition populate_batch : list PopulateOpt :=
  [ Nested "teacher_id" (PathSelect "user_id" "name email");
    Nested "students" (PathSelect "user_id" "name email");
    PathSelect "subject_id" "subject_name";
    PathSelect "class_id" "className classLevel curriculum" ].

(** [batch.students ? batch.students.length : 0] on the populated
    document. *)
Definition studentcount (batch : JsValue) : JsValue :=
  if truthy (js_get "students" batch)
  then js_length (js_get "students" batch)
  else JNum 0.

(** [id] is [req.params.id]; the response is the status and the JSON
    body. *)
Definition getBatchById (db : Db.t) (id : option string) : nat * JsValue :=
  let attempt : Try (nat * JsValue) :=
    match id with
    | None => ret (400%nat, JObj [("message", JStr "Batch ID is required")])
    | Some id =>
        if falsy (JStr id)
        then ret (400%nat, JObj [("message", JStr "Batch ID is required")])
        else
          o <- orThrow CastError (ObjectId_new (JStr id)) ;;
          match Batch_findById o (Db.batches db) with
          | None => ret (404%nat, JObj [("message", JStr "Batch not found")])
          | Some b =>
              let batch := Batch_populate db populate_batch b in
              let batchObj := js_set "studentcount" (studentcount batch) batch in
              ret (200%nat,
                   JObj [ ("message", JStr "Batch fetched successfully");
                          ("batch", batchObj) ])
          end
    end in
  match attempt with
  | inr r => r
  | inl _ => (500%nat, JObj [("error", JStr "Server error")])
  end.
End FurtherHandlers.

(** ** Vocabulary of the further statements *)

(** [s'] is [s] with the marker [m] added to its [batch_creation] set. *)
Definition marked (m : Marker.t) (s s' : Student.t) : Prop :=
  s' = Student.with_batch_creation (addToSet m (Student.batch_creation s)) s.

(** What a bulk write of the marker [m] over the roster [ids] may do to one
    document: nothing, or, to a document of the roster, add the marker. *)
Definition roster_step (ids : list ObjectId) (m : Marker.t)
    (s s' : Student.t) : Prop :=
  s' = s \/ (In (Student._id s) ids /\ marked m s s').

(** Every marker of [s] is a marker of [s']. *)
Definition markers_kept (s s' : Student.t) : Prop :=
  forall l, Student.batch_creation s = Some l ->
  exists l', Student.batch_creation s' = Some l'
             /\ forall m, In m l -> In m l'.

(** The [updateData] of a request that sets nothing: every property is
    falsy, [is_paid] is [undefined]. *)
Definition sets_nothing (body : UpdateStudentBody.t) : Prop :=
  truthy (UpdateStudentBody.class_id body) = false
  /\ truthy (UpdateStudentBody.auth_id body) = false
  /\ truthy (UpdateStudentBody.student_id body) = false
  /\ truthy (UpdateStudentBody.user_id body) = false
  /\ truthy (UpdateStudentBody.subscribed_Package body) = false
  /\ UpdateStudentBody.is_paid body = JUndefined
  /\ truthy (UpdateStudentBody.subscription_id body) = false
  /\ truthy (UpdateStudentBody.payment_id body) = false
  /\ truthy (UpdateStudentBody.last_online body) = false
  /\ truthy (UpdateStudentBody.phone_number body) = false.


Module Sample2.
(** [Sample.db] with a student whose [is_paid] was never set. *)
Definition erin : Student.t :=
  Student.mk "a00000000000000000000005" (JStr "auth-erin")
    (JOid "5a0000000000000000000005") (JOid "0a0000000000000000000005")
    (JStr "student") JUndefined (JArr []) JUndefined (JOid Sample.gold)
    JUndefined JUndefined JUndefined JUndefined JUndefined JUndefined None.

Definition db : Db.t :=
  Db.with_students (Db.students Sample.db ++ [erin]) Sample.db.

(** A request for a physics batch with the roster of the morning batch. *)
Definition physics_request : CreateBatchBody :=
  mkCreateBatchBody (JStr "Evening physics") JUndefined (JStr Sample.physics)
    (JStr Sample.class9) (JStr Sample.teacher)
    (JArr [JStr Sample.alice_id; JStr Sample.bob_id]) (JStr "2024-10-02")
    (JStr "normal").

(** The batch document of the morning batch. *)
Definition morning_batch : Batch.t :=
  Batch.mk Sample.batch1 (JStr "Morning maths") JUndefined Sample.maths
    Sample.class9 Sample.teacher [Sample.alice_id; Sample.bob_id]
    (JStr "2024-10-01") (JStr "normal").

(** An update in which every value is falsy. *)
Definition blank_update : UpdateStudentBody.t :=
  UpdateStudentBody.mk JUndefined (JStr "") JNull JUndefined JUndefined
    JUndefined (JNum 0) JUndefined (JBool false) (JStr "").


(** [Sample.db] with a third subject that no package includes. *)
Definition chemistry : ObjectId := "c00000000000000000000003".
Definition db_chemistry : Db.t :=
  Db.mk (Db.students Sample.db) (Db.batches Sample.db)
    (Db.subjects Sample.db ++ [Subject.mk chemistry (JStr "Chemistry")])
    (Db.packages Sample.db) (Db.classes Sample.db).
End Sample2.

(** A concrete ODM that renders a populated batch with its fields, the
    roster as the array of its ids. *)
Definition render_batch (b : Batch.t) : JsValue :=
  JObj [ ("_id", JOid (Batch._id b));
         ("batch_name", Batch.batch_name b);
         ("subject_id", JOid (Batch.subject_id b));
         ("class_id", JOid (Batch.class_id b));
         ("teacher_id", JOid (Batch.teacher_id b));
         ("students", JArr (map JOid (Batch.students b)));
         ("date", Batch.date b);
         ("type_of_batch", Batch.type_of_batch b) ].

Definition renderOdm : Odm := {|
  ObjectId_isValid := hex_ObjectId_isValid;
  ObjectId_new := hex_ObjectId_new;
  ObjectId_constructor := hex_ObjectId_constructor;
  Student_defaults := blank_student;
  Student_cast := fun _ v => Some v;
  Student_validate := fun _ => true;
  Batch_validate := fun _ => true;
  Student_populate := fun _ _ s => s;
  Batch_populate := fun _ _ b => render_batch b
|}.

(** * Properties *)

(** ** Values and markers *)

Lemma js_eqb_refl : forall a, js_eqb a a = true.
Proof.
  fix IH 1. intros [ | | b | n | s | o | l | f ]; simpl; trivial.
  - apply Bool.eqb_reflx.
  - apply Z.eqb_refl.
  - apply String.eqb_refl.
  - apply String.eqb_refl.
  - induction l as [ | x r IHr ]; trivial. now rewrite IH, IHr.
  - induction f as [ | [k x] r IHr ]; trivial.
    now rewrite String.eqb_refl, IH, IHr.
Qed.

Lemma js_eqb_true : forall a b, js_eqb a b = true -> a = b.
Proof.
  fix IH 1.
  intros [ | | x | x | x | x | l | f ] [ | | y | y | y | y | l' | f' ];
    simpl; intros E; try discriminate; trivial.
  - f_equal. now apply Bool.eqb_prop.
  - f_equal. now apply Z.eqb_eq.
  - f_equal. now apply String.eqb_eq.
  - f_equal. now apply String.eqb_eq.
  - f_equal. revert l' E.
    induction l as [ | x r IHr ]; intros [ | y r' ] E; try discriminate; trivial.
    apply andb_prop in E. destruct E as [E1 E2].
    f_equal; [ now apply IH | now apply IHr ].
  - f_equal. revert f' E.
    induction f as [ | [k x] r IHr ]; intros [ | [k' y] r' ] E;
      try discriminate; trivial.
    apply andb_prop in E. destruct E as [E12 E3].
    apply andb_prop in E12. destruct E12 as [E1 E2].
    apply String.eqb_eq in E1. apply IH in E2. apply IHr in E3.
    now subst.
Qed.

Lemma js_eqb_eq (a b : JsValue) : js_eqb a b = true <-> a = b.
Proof.
  split; [ apply js_eqb_true | intros ->; apply js_eqb_refl ].
Qed.

Lemma Marker_eqb_eq (a b : Marker.t) : Marker.eqb a b = true <-> a = b.
Proof.
  destruct a as [sa ta], b as [sb tb]. unfold Marker.eqb. simpl.
  rewrite andb_true_iff, String.eqb_eq, Bool.eqb_true_iff.
  split; [ intros [-> ->]; reflexivity | intros E; injection E; auto ].
Qed.

Lemma existsb_Marker_eqb (m : Marker.t) (l : list Marker.t) :
  existsb (Marker.eqb m) l = true <-> In m l.
Proof.
  rewrite existsb_exists. split.
  - intros [x [Hx E]]. apply Marker_eqb_eq in E. now subst.
  - intros H. exists m. split; trivial. now apply Marker_eqb_eq.
Qed.

Lemma existsb_String_eqb (o : string) (l : list string) :
  existsb (String.eqb o) l = true <-> In o l.
Proof.
  rewrite existsb_exists. split.
  - intros [x [Hx E]]. apply String.eqb_eq in E. now subst.
  - intros H. exists o. split; trivial. apply String.eqb_refl.
Qed.

(** ** Casting a roster and counting its documents *)

Section CollectionFacts.
Context {odm : Odm}.

Lemma castObjectIds_castRefs (vs : list JsValue) :
  castObjectIds vs =
    match castRefs vs with
    | Some ids => inr ids
    | None => inl CastError
    end.
Proof.
  induction vs as [ | v r IH ]; simpl; trivial.
  destruct (ObjectId_new v) as [o | ]; simpl; trivial.
  rewrite IH. destruct (castRefs r); reflexivity.
Qed.

Lemma castRefs_length (vs : list JsValue) (ids : list ObjectId) :
  castRefs vs = Some ids -> List.length ids = List.length vs.
Proof.
  revert ids. induction vs as [ | v r IH ]; simpl; intros ids E.
  - now injection E as <-.
  - destruct (ObjectId_new v); try discriminate.
    destruct (castRefs r) as [os | ]; try discriminate.
    injection E as <-. simpl. f_equal. now apply IH.
Qed.

Lemma castRefs_In (vs : list JsValue) (ids : list ObjectId) (v : JsValue) :
  castRefs vs = Some ids -> In v vs ->
  exists o, ObjectId_new v = Some o /\ In o ids.
Proof.
  revert ids. induction vs as [ | x r IH ]; simpl; intros ids E H.
  - contradiction.
  - destruct (ObjectId_new x) as [ox | ] eqn:Ex; try discriminate.
    destruct (castRefs r) as [os | ]; try discriminate.
    injection E as <-. destruct H as [-> | H].
    + exists ox. split; [ assumption | now left ].
    + destruct (IH os eq_refl H) as [o [Eo Ho]].
      exists o. split; [ assumption | now right ].
Qed.

Lemma castRefs_None (vs : list JsValue) :
  castRefs vs = None -> exists v, In v vs /\ ObjectId_new v = None.
Proof.
  induction vs as [ | x r IH ]; simpl; intros E; try discriminate.
  destruct (ObjectId_new x) as [ox | ] eqn:Ex.
  - destruct (castRefs r); try discriminate.
    destruct (IH eq_refl) as [v [Hv Ev]]. exists v. auto.
  - exists x. auto.
Qed.

Lemma castRefs_Some (vs : list JsValue) :
  (forall v, In v vs -> ObjectId_new v <> None) ->
  exists ids, castRefs vs = Some ids.
Proof.
  intros H. destruct (castRefs vs) as [ids | ] eqn:E.
  - now exists ids.
  - destruct (castRefs_None _ E) as [v [Hv Ev]]. now apply H in Hv.
Qed.

Lemma id_in_true (ids : list ObjectId) (s : Student.t) :
  id_in ids s = true <-> In (Student._id s) ids.
Proof. apply existsb_String_eqb. Qed.


Lemma NoDup_map_filter (p : Student.t -> bool) (l : list Student.t) :
  NoDup (map Student._id l) -> NoDup (map Student._id (filter p l)).
Proof.
  induction l as [ | s r IH ]; simpl; intros H; trivial.
  inversion H as [ | ? ? Hnotin Hr ]; subst.
  destruct (p s); simpl; auto.
  constructor; auto.
  intros Hin. apply Hnotin.
  apply in_map_iff in Hin. destruct Hin as [x [Ex Hx]].
  apply filter_In in Hx. apply in_map_iff. exists x. tauto.
Qed.

Lemma matched_ids_incl (ids : list ObjectId) (l : list Student.t) :
  incl (map Student._id (filter (id_in ids) l)) ids.
Proof.
  intros o Ho. apply in_map_iff in Ho. destruct Ho as [s [<- Hs]].
  apply filter_In in Hs. now apply id_in_true.
Qed.

(** The count of matching documents never exceeds the number of ids asked
    for. *)
Lemma count_le_length (ids : list ObjectId) (l : list Student.t) :
  NoDup (map Student._id l) ->
  (List.length (filter (id_in ids) l) <= List.length ids)%nat.
Proof.
  intros Hl.
  rewrite <- (length_map Student._id).
  apply NoDup_incl_length;
    [ now apply NoDup_map_filter | apply matched_ids_incl ].
Qed.

(** The two ways the count falls short of the roster's length. *)
Lemma count_eq_length (ids : list ObjectId) (l : list Student.t) :
  NoDup (map Student._id l) ->
  List.length (filter (id_in ids) l) = List.length ids ->
  NoDup ids /\ incl ids (map Student._id l).
Proof.
  intros Hl E.
  assert (Hm : NoDup (map Student._id (filter (id_in ids) l)))
    by now apply NoDup_map_filter.
  assert (Hle : (List.length ids
                 <= List.length (map Student._id (filter (id_in ids) l)))%nat)
    by (rewrite length_map; lia).
  split.
  - exact (NoDup_incl_NoDup Hm Hle (matched_ids_incl ids l)).
  - intros o Ho.
    apply (NoDup_length_incl Hm Hle (matched_ids_incl ids l)) in Ho.
    apply in_map_iff in Ho. destruct Ho as [s [<- Hs]].
    apply filter_In in Hs. apply in_map. tauto.
Qed.

Lemma length_eq_count (ids : list ObjectId) (l : list Student.t) :
  NoDup (map Student._id l) -> NoDup ids ->
  incl ids (map Student._id l) ->
  List.length (filter (id_in ids) l) = List.length ids.
Proof.
  intros Hl Hids Hincl.
  apply Nat.le_antisymm; [ now apply count_le_length | ].
  rewrite <- (length_map Student._id (filter (id_in ids) l)).
  apply NoDup_incl_length; trivial.
  intros o Ho. specialize (Hincl o Ho).
  apply in_map_iff in Hincl. destruct Hincl as [s [<- Hs]].
  apply in_map. apply filter_In. split; trivial. now apply id_in_true.
Qed.
End CollectionFacts.

(** ** createBatch, path by path *)

Section CreateBatchFacts.
Context {odm : Odm}.

Lemma castBulkOps_roster (roster : list JsValue) (ids : list ObjectId)
    (raw : JsValue) (subject : ObjectId) :
  castRefs roster = Some ids -> ObjectId_new raw = Some subject ->
  castBulkOps (map (fun studentId => mkUpdateOne studentId raw true) roster)
  = inr (roster_ops ids subject).
Proof.
  intros E Es. revert ids E.
  induction roster as [ | v r IH ]; simpl; intros ids E.
  - now injection E as <-.
  - destruct (ObjectId_new v) as [o | ]; try discriminate.
    destruct (castRefs r) as [os | ]; try discriminate.
    injection E as <-. simpl. rewrite Es. simpl.
    now rewrite (IH os eq_refl).
Qed.

Lemma Batch_new_Some (fresh : ObjectId) (body : CreateBatchBody)
    (roster : list JsValue) (b : Batch.t) :
  Batch_new fresh body roster = Some b ->
  ObjectId_new (subject_id body) = Some (Batch.subject_id b)
  /\ castRefs roster = Some (Batch.students b)
  /\ Batch._id b = fresh.
Proof.
  unfold Batch_new.
  destruct (ObjectId_new (subject_id body)); try discriminate.
  destruct (ObjectId_new (class_id body)); try discriminate.
  destruct (ObjectId_new (teacher_id body)); try discriminate.
  destruct (castRefs roster); try discriminate.
  intros E. injection E as <-. simpl. auto.
Qed.

Lemma createBatch_outcome_eq (db : Db.t) (body : CreateBatchBody)
    (fresh : ObjectId) :
  createBatch db body fresh = createBatch_outcome db body fresh.
Proof.
  unfold createBatch, createBatch_try, createBatch_outcome, all_required,
    falsy.
  destruct (truthy (batch_name body)); simpl; trivial.
  destruct (truthy (subject_id body)); simpl; trivial.
  destruct (truthy (class_id body)); simpl; trivial.
  destruct (truthy (teacher_id body)); simpl; trivial.
  destruct (truthy (students body)); simpl; trivial.
  destruct (truthy (date body)); simpl; trivial.
  destruct (truthy (type_of_batch body)); simpl; trivial.
  destruct (students body) as [ | | | | | | roster | ]; trivial.
  unfold Student_countDocuments_id_in.
  rewrite castObjectIds_castRefs.
  destruct (castRefs roster) as [ids | ] eqn:Eids; simpl; trivial.
  destruct (List.length (filter (id_in ids) (Db.students db))
            =? List.length roster)%nat; simpl; trivial.
  destruct (Batch_new fresh body roster) as [b | ] eqn:Eb; simpl; trivial.
  destruct (Batch_validate b); simpl; trivial.
  destruct (Batch_new_Some _ _ _ Eb) as [Es [Er _]].
  unfold Student_bulkWrite.
  rewrite (castBulkOps_roster _ _ Er Es). simpl.
  unfold batch_created, Session.commitTransaction, Session.write,
    Db.with_students, Db.with_batches. simpl.
  rewrite Eids in Er. now injection Er as <-.
Qed.

(** Rollback: a response other than 201 leaves the database as it was. *)
Lemma createBatch_rollback (db : Db.t) (body : CreateBatchBody)
    (fresh : ObjectId) :
  status (fst (createBatch db body fresh)) <> 201%nat ->
  snd (createBatch db body fresh) = db.
Proof.
  rewrite createBatch_outcome_eq. unfold createBatch_outcome.
  destruct (negb (all_required body)); trivial.
  destruct (students body) as [ | | | | | | roster | ]; trivial.
  destruct (castRefs roster) as [ids | ]; trivial.
  destruct (_ =? _)%nat; trivial.
  destruct (Batch_new fresh body roster) as [b | ]; trivial.
  destruct (Batch_validate b); trivial.
  simpl. intros H. now elim H.
Qed.
End CreateBatchFacts.

(** ** createBatch: rejected requests *)

Section CreateBatchRejects.
Context {odm : Odm}.


(** C1: when some id of the submitted roster is not the id of a stored
    student (it is no identifier at all, or no student carries it),
    [createBatch] answers with an error status and the database is exactly
    what it was: no batch is inserted and no [batch_creation] array is
    touched. *)
Theorem createBatch_unknown_student_atomic
    (db : Db.t) (body : CreateBatchBody) (fresh : ObjectId)
    (roster : list JsValue) :
  Db.wf db ->
  students body = JArr roster ->
  (exists v, In v roster /\
     forall o, ObjectId_new v = Some o ->
               ~ In o (map Student._id (Db.students db))) ->
  let r := createBatch db body fresh in
  (status (fst r) = 400%nat \/ status (fst r) = 500%nat)
  /\ snd r = db
  /\ Db.batches (snd r) = Db.batches db
  /\ map Student.batch_creation (Db.students (snd r))
     = map Student.batch_creation (Db.students db).
Proof.
  intros Hwf Hroster [v [Hv Hmiss]] r.
  assert (H : (status (fst r) = 400%nat \/ status (fst r) = 500%nat)
              /\ snd r = db).
  { subst r. rewrite createBatch_outcome_eq. unfold createBatch_outcome.
    destruct (negb (all_required body)); simpl; auto.
    rewrite Hroster.
    destruct (castRefs roster) as [ids | ] eqn:Eids; simpl; auto.
    destruct (_ =? _)%nat eqn:Ecount; simpl; auto.
    exfalso. apply Nat.eqb_eq in Ecount.
    rewrite <- (castRefs_length _ Eids) in Ecount.
    destruct (count_eq_length ids (Db.students db) Hwf Ecount) as [_ Hincl].
    destruct (castRefs_In _ v Eids Hv) as [o [Eo Ho]].
    exact (Hmiss o Eo (Hincl o Ho)). }
  destruct H as [Hs Hdb]. rewrite Hdb. auto.
Qed.

(** C10: a roster that names one student twice is always turned down, and
    a request that passes the field checks is turned down with the
    invalid-student-id error, whether or not every id is the id of a stored
    student: the documents counted are distinct, the roster's length counts
    the repetition. *)
Theorem createBatch_duplicate_roster_rejected
    (db : Db.t) (body : CreateBatchBody) (fresh : ObjectId)
    (roster : list JsValue) (ids : list ObjectId) :
  Db.wf db ->
  students body = JArr roster ->
  castRefs roster = Some ids ->
  ~ NoDup ids ->
  (status (fst (createBatch db body fresh)) <> 201%nat
   /\ snd (createBatch db body fresh) = db)
  /\ (all_required body = true ->
      createBatch db body fresh
      = (json 500 (Error "One or more student IDs are invalid"), db)).
Proof.
  intros Hwf Hroster Eids Hdup.
  rewrite createBatch_outcome_eq. unfold createBatch_outcome.
  rewrite Hroster, Eids.
  assert (Ecount : (List.length (filter (id_in ids) (Db.students db))
                    =? List.length roster)%nat = false).
  { apply Nat.eqb_neq. intros E.
    rewrite <- (castRefs_length _ Eids) in E.
    now destruct (count_eq_length ids (Db.students db) Hwf E). }
  rewrite Ecount. split.
  - destruct (negb (all_required body)); simpl; split; trivial; discriminate.
  - now intros ->.
Qed.
End CreateBatchRejects.

Lemma Sample_db_wf : Db.wf Sample.db.
Proof.
  unfold Db.wf. simpl.
  repeat constructor; simpl; intuition discriminate.
Qed.

Lemma createBatch_unknown_student_atomic_witness :
  let r := @createBatch hexOdm Sample.db
             (Sample.request [JStr Sample.alice_id; JStr Sample.batch2])
             Sample.batch1 in
  (status (fst r) = 400%nat \/ status (fst r) = 500%nat)
  /\ snd r = Sample.db
  /\ Db.batches (snd r) = Db.batches Sample.db
  /\ map Student.batch_creation (Db.students (snd r))
     = map Student.batch_creation (Db.students Sample.db).
Proof.
  apply (@createBatch_unknown_student_atomic hexOdm Sample.db
           (Sample.request [JStr Sample.alice_id; JStr Sample.batch2])
           Sample.batch1 [JStr Sample.alice_id; JStr Sample.batch2]).
  - exact Sample_db_wf.
  - reflexivity.
  - exists (JStr Sample.batch2). split.
    + simpl. auto.
    + intros o E. vm_compute in E. injection E as <-.
      simpl. intuition discriminate.
Defined.

Lemma createBatch_duplicate_roster_rejected_witness :
  @createBatch hexOdm Sample.db
    (Sample.request [JStr Sample.alice_id; JStr Sample.alice_id])
    Sample.batch1
  = (json 500 (Error "One or more student IDs are invalid"), Sample.db).
Proof.
  apply (@createBatch_duplicate_roster_rejected hexOdm Sample.db
           (Sample.request [JStr Sample.alice_id; JStr Sample.alice_id])
           Sample.batch1 [JStr Sample.alice_id; JStr Sample.alice_id]
           [Sample.alice_id; Sample.alice_id]).
  - exact Sample_db_wf.
  - reflexivity.
  - reflexivity.
  - intros H. inversion H as [ | ? ? Hnotin _ ]. apply Hnotin. now left.
  - reflexivity.
Defined.

(** ** createBatch: the field checks *)

Section CreateBatchValidation.
Context {odm : Odm}.

End CreateBatchValidation.



(** ** createBatch: the markers it leaves *)

Section CreateBatchMarkers.
Context {odm : Odm}.

Lemma with_batch_creation_same (s : Student.t) :
  Student.with_batch_creation (Student.batch_creation s) s = s.
Proof. now destruct s. Qed.

Lemma addToSet_In (m : Marker.t) (bc : option (list Marker.t)) :
  exists l, addToSet m bc = Some l /\ In m l.
Proof.
  destruct bc as [l | ]; simpl.
  - destruct (existsb (Marker.eqb m) l) eqn:E.
    + exists l. split; trivial. now apply existsb_Marker_eqb.
    + exists (l ++ [m]). split; trivial. apply in_or_app. right. now left.
  - exists [m]. split; trivial. now left.
Qed.

Lemma addToSet_present (m : Marker.t) (l : list Marker.t) :
  In m l -> addToSet m (Some l) = Some l.
Proof.
  intros H. simpl. apply existsb_Marker_eqb in H. now rewrite H.
Qed.

Lemma addToSet_absent (m : Marker.t) (l : list Marker.t) :
  ~ In m l -> addToSet m (Some l) = Some (l ++ [m]).
Proof.
  intros H. simpl.
  destruct (existsb (Marker.eqb m) l) eqn:E; trivial.
  apply existsb_Marker_eqb in E. contradiction.
Qed.

Lemma addToSet_idempotent (m : Marker.t) (bc : option (list Marker.t)) :
  addToSet m (addToSet m bc) = addToSet m bc.
Proof.
  destruct (addToSet_In m bc) as [l [E H]]. rewrite E.
  now apply addToSet_present.
Qed.

(** The document found under [o] after one [updateOne]. *)
Lemma findById_updateOne (o o' : ObjectId) (m : Marker.t)
    (l : list Student.t) :
  Student_findById o (updateOne_addToSet o' m l)
  = match Student_findById o l with
    | Some s =>
        Some (if o =? o'
              then Student.with_batch_creation
                     (addToSet m (Student.batch_creation s)) s
              else s)
    | None => None
    end.
Proof.
  unfold Student_findById.
  induction l as [ | x r IH ]; simpl; trivial.
  destruct (Student._id x =? o') eqn:E'; simpl.
  - apply String.eqb_eq in E'. subst o'. rewrite (String.eqb_sym o).
    destruct (Student._id x =? o) eqn:E; trivial.
    now destruct (find _ r).
  - destruct (Student._id x =? o) eqn:E; trivial.
    apply String.eqb_eq in E. rewrite <- E, E'. reflexivity.
Qed.

(** The document found under [o] after the bulk write of a roster: it has
    gained the marker when [o] is on the roster, and is untouched when it
    is not. *)
Lemma findById_applyBulkOps (o subject : ObjectId) (ids : list ObjectId) :
  forall l : list Student.t,
  Student_findById o (applyBulkOps (roster_ops ids subject) l)
  = match Student_findById o l with
    | Some s =>
        Some (if existsb (String.eqb o) ids
              then Student.with_batch_creation
                     (addToSet (Marker.mk subject true)
                        (Student.batch_creation s)) s
              else s)
    | None => None
    end.
Proof.
  unfold applyBulkOps.
  induction ids as [ | o' r IH ]; intros l; simpl.
  - now destruct (Student_findById o l).
  - rewrite IH, findById_updateOne.
    destruct (Student_findById o l) as [s | ]; trivial.
    destruct (o =? o') eqn:E; simpl.
    + rewrite addToSet_idempotent.
      destruct (existsb (String.eqb o) r); reflexivity.
    + reflexivity.
Qed.
Lemma findById_Some (o : ObjectId) (l : list Student.t) :
  In o (map Student._id l) -> exists s, Student_findById o l = Some s.
Proof.
  unfold Student_findById.
  induction l as [ | x r IH ]; simpl; intros H; [ contradiction | ].
  destruct (Student._id x =? o) eqn:E.
  - now exists x.
  - destruct H as [H | H]; auto.
    rewrite H, String.eqb_refl in E. discriminate.
Qed.

Lemma Batch_findById_last (fresh : ObjectId) (b : Batch.t)
    (l : list Batch.t) :
  ~ In fresh (map Batch._id l) -> Batch._id b = fresh ->
  Batch_findById fresh (l ++ [b]) = Some b.
Proof.
  unfold Batch_findById. intros Hfresh Hb.
  induction l as [ | x r IH ]; simpl in *.
  - now rewrite Hb, String.eqb_refl.
  - destruct (Batch._id x =? fresh) eqn:E.
    + apply String.eqb_eq in E. tauto.
    + apply IH. tauto.
Qed.

Lemma createBatch_valid (db : Db.t) (body : CreateBatchBody)
    (fresh : ObjectId) (roster : list JsValue) (b : Batch.t) :
  Db.wf db -> valid_request db body fresh roster b ->
  createBatch db body fresh
  = (json 201 (Message "Batch created successfully"), batch_created db b).
Proof.
  intros Hwf (Hreq & Hroster & Eb & Hb & Hnodup & Hincl).
  rewrite createBatch_outcome_eq. unfold createBatch_outcome.
  rewrite Hreq, Hroster. simpl.
  destruct (Batch_new_Some _ _ _ Eb) as [_ [Er _]]. rewrite Er.
  rewrite (length_eq_count (Db.students db) Hwf Hnodup Hincl), (castRefs_length _ Er).
  now rewrite Nat.eqb_refl, Eb, Hb.
Qed.

(** C2: a valid request with a roster of N stored students is answered 201;
    afterwards the batch is found under its [_id], its roster has the N
    students, and each of them carries a [batch_creation] entry with the
    batch's subject and [status: true]. *)
Theorem createBatch_marks_every_student
    (db : Db.t) (body : CreateBatchBody) (fresh : ObjectId)
    (roster : list JsValue) (b : Batch.t) :
  Db.wf db ->
  ~ In fresh (map Batch._id (Db.batches db)) ->
  valid_request db body fresh roster b ->
  status (fst (createBatch db body fresh)) = 201%nat
  /\ Batch_findById fresh (Db.batches (snd (createBatch db body fresh)))
     = Some b
  /\ castRefs roster = Some (Batch.students b)
  /\ List.length (Batch.students b) = List.length roster
  /\ forall o, In o (Batch.students b) ->
       exists s l,
         Student_findById o (Db.students (snd (createBatch db body fresh)))
         = Some s
         /\ Student.batch_creation s = Some l
         /\ In (Marker.mk (Batch.subject_id b) true) l.
Proof.
  intros Hwf Hfresh Hvalid.
  rewrite (createBatch_valid Hwf Hvalid). simpl.
  destruct Hvalid as (_ & _ & Eb & _ & _ & Hincl).
  destruct (Batch_new_Some _ _ _ Eb) as [_ [Er Hid]].
  repeat split; trivial.
  - now apply Batch_findById_last.
  - now apply castRefs_length.
  - intros o Ho. rewrite findById_applyBulkOps.
    destruct (findById_Some _ _ (Hincl o Ho)) as [s Es]. rewrite Es.
    apply existsb_String_eqb in Ho. rewrite Ho.
    destruct (addToSet_In (Marker.mk (Batch.subject_id b) true)
                (Student.batch_creation s)) as [l [El Hl]].
    eexists. exists l. split; [ reflexivity | ]. simpl. auto.
Qed.

(** C5: the marker update is an add-if-absent.  Adding an entry that the
    array already holds leaves the array as it is, so a student who already
    carries [{subject, true}] is unchanged by any further [createBatch] for
    that subject; an entry [{subject, false}] is not replaced: the
    [{subject, true}] entry is appended after it, and the array then holds
    both. *)
Theorem batch_creation_add_if_absent :
  (forall (m : Marker.t) (l : list Marker.t),
      In m l -> addToSet m (Some l) = Some l)
  /\ (forall (subject : ObjectId) (l : list Marker.t),
        In (Marker.mk subject false) l ->
        ~ In (Marker.mk subject true) l ->
        addToSet (Marker.mk subject true) (Some l)
        = Some (l ++ [Marker.mk subject true]))
  /\ (forall subject : ObjectId,
        addToSet (Marker.mk subject true) (Some [Marker.mk subject false])
        = Some [Marker.mk subject false; Marker.mk subject true])
  /\ (forall (db : Db.t) (body : CreateBatchBody) (fresh : ObjectId)
             (subject o : ObjectId) (s : Student.t) (l : list Marker.t),
        ObjectId_new (subject_id body) = Some subject ->
        Student_findById o (Db.students db) = Some s ->
        Student.batch_creation s = Some l ->
        In (Marker.mk subject true) l ->
        Student_findById o (Db.students (snd (createBatch db body fresh)))
        = Some s)
  /\ (forall (db : Db.t) (body : CreateBatchBody) (fresh : ObjectId)
             (roster : list JsValue) (b : Batch.t)
             (o : ObjectId) (s : Student.t) (l : list Marker.t),
        Db.wf db ->
        valid_request db body fresh roster b ->
        In o (Batch.students b) ->
        Student_findById o (Db.students db) = Some s ->
        Student.batch_creation s = Some l ->
        In (Marker.mk (Batch.subject_id b) false) l ->
        ~ In (Marker.mk (Batch.subject_id b) true) l ->
        Student_findById o (Db.students (snd (createBatch db body fresh)))
        = Some (Student.with_batch_creation
                  (Some (l ++ [Marker.mk (Batch.subject_id b) true])) s)).
Proof.
  split; [ | split; [ | split; [ | split ] ] ].
  - apply addToSet_present.
  - intros subject l _ H. now apply addToSet_absent.
  - intros subject. apply addToSet_absent. simpl. intros [H | []].
    discriminate.
  - intros db body fresh subject o s l Es Eo El Hl.
    rewrite createBatch_outcome_eq. unfold createBatch_outcome.
    destruct (negb (all_required body)); trivial.
    destruct (students body) as [ | | | | | | roster | ]; trivial.
    destruct (castRefs roster) as [ids | ]; trivial.
    destruct (_ =? _)%nat; trivial.
    destruct (Batch_new fresh body roster) as [b | ] eqn:Eb; trivial.
    destruct (Batch_validate b); trivial.
    simpl. rewrite findById_applyBulkOps, Eo.
    destruct (Batch_new_Some _ _ _ Eb) as [Es' _].
    rewrite Es in Es'. injection Es' as <-.
    rewrite El, (addToSet_present _ _ Hl), <- El, with_batch_creation_same.
    now destruct (existsb _ _).
  - intros db body fresh roster b o s l Hwf Hvalid Ho Eo El _ Hl.
    rewrite (createBatch_valid Hwf Hvalid). simpl.
    rewrite findById_applyBulkOps, Eo.
    apply existsb_String_eqb in Ho. rewrite Ho.
    now rewrite El, (addToSet_absent _ _ Hl).
Qed.
End CreateBatchMarkers.

Lemma Sample_request_valid :
  @valid_request hexOdm Sample.db
    (Sample.request [JStr Sample.alice_id; JStr Sample.bob_id]) Sample.batch1
    [JStr Sample.alice_id; JStr Sample.bob_id]
    (Batch.mk Sample.batch1 (JStr "Morning maths") JUndefined Sample.maths
       Sample.class9 Sample.teacher [Sample.alice_id; Sample.bob_id]
       (JStr "2024-10-01") (JStr "normal")).
Proof.
  unfold valid_request. simpl.
  repeat split; try reflexivity.
  - repeat constructor; simpl; intuition discriminate.
  - intros o [<- | [<- | []]]; simpl; auto.
Qed.

Lemma createBatch_marks_every_student_witness :
  status (fst (@createBatch hexOdm Sample.db
                 (Sample.request [JStr Sample.alice_id; JStr Sample.bob_id])
                 Sample.batch1)) = 201%nat
  /\ exists s l,
       Student_findById Sample.bob_id
         (Db.students
            (snd (@createBatch hexOdm Sample.db
                    (Sample.request [JStr Sample.alice_id; JStr Sample.bob_id])
                    Sample.batch1))) = Some s
       /\ Student.batch_creation s = Some l
       /\ In (Marker.mk Sample.maths true) l.
Proof.
  destruct (@createBatch_marks_every_student hexOdm Sample.db
              (Sample.request [JStr Sample.alice_id; JStr Sample.bob_id])
              Sample.batch1 [JStr Sample.alice_id; JStr Sample.bob_id] _
              Sample_db_wf (fun H : In Sample.batch1 [] => H)
              Sample_request_valid)
    as (H201 & _ & _ & _ & Hall).
  split; [ exact H201 | ].
  apply (Hall Sample.bob_id). simpl. auto.
Defined.

Lemma batch_creation_add_if_absent_witness :
  @addToSet (Marker.mk Sample.maths true)
    (Some [Marker.mk Sample.maths false; Marker.mk Sample.maths true])
  = Some [Marker.mk Sample.maths false; Marker.mk Sample.maths true]
  /\ Student_findById Sample.bob_id
       (Db.students
          (snd (@createBatch hexOdm Sample.db
                  (Sample.request [JStr Sample.alice_id; JStr Sample.bob_id])
                  Sample.batch1)))
     = Some (Student.with_batch_creation
               (Some [Marker.mk Sample.maths false;
                      Marker.mk Sample.maths true]) Sample.bob).
Proof.
  split.
  - apply (proj1 (@batch_creation_add_if_absent hexOdm)). simpl. auto.
  - apply (proj2 (proj2 (proj2 (proj2 (@batch_creation_add_if_absent hexOdm))))
             Sample.db
             (Sample.request [JStr Sample.alice_id; JStr Sample.bob_id])
             Sample.batch1 [JStr Sample.alice_id; JStr Sample.bob_id] _
             Sample.bob_id Sample.bob [Marker.mk Sample.maths false]
             Sample_db_wf Sample_request_valid).
    + simpl. auto.
    + reflexivity.
    + reflexivity.
    + simpl. auto.
    + simpl. intros [H | []]. discriminate.
Defined.

(** ** Batch lookups *)

Section BatchLookups.
Context {odm : Odm}.

(** C8: the lookup by teacher answers 403 to every caller whose role is
    not ["teacher"] and 404 when no batch has the teacher; the lookup by
    student answers 200 with an empty array when no batch has the student
    on its roster. *)
Theorem batch_lookup_errors (db : Db.t) :
  (forall (u : User) (teacherId : string),
      user_role u <> JStr "teacher" ->
      getBatchesByTeacherId db (Some u) teacherId
      = json 403 (Message "Access denied: Not a teacher"))
  /\ (forall (u : User) (teacherId : string) (t : ObjectId),
        user_role u = JStr "teacher" ->
        ObjectId_new (JStr teacherId) = Some t ->
        (forall b, In b (Db.batches db) -> Batch.teacher_id b <> t) ->
        getBatchesByTeacherId db (Some u) teacherId
        = json 404 (Message "No batches found for this teacher"))
  /\ (forall (studentId : string) (o : ObjectId),
        ObjectId_new (JStr studentId) = Some o ->
        (forall b, In b (Db.batches db) -> ~ In o (Batch.students b)) ->
        getBatchesByStudentId db studentId = json 200 (BatchArray [])).
Proof.
  split; [ | split ].
  - intros u teacherId Hrole. unfold getBatchesByTeacherId. simpl.
    destruct (js_eqb (user_role u) (JStr "teacher")) eqn:E; trivial.
    apply js_eqb_eq in E. contradiction.
  - intros u teacherId t Hrole Et Hnone.
    unfold getBatchesByTeacherId, Batch_find_teacher_id. simpl.
    rewrite Hrole, Et. simpl.
    destruct (filter _ (Db.batches db)) as [ | b r ] eqn:F; trivial.
    assert (Hb : In b (filter (fun b => Batch.teacher_id b =? t)
                         (Db.batches db))) by (rewrite F; now left).
    apply filter_In in Hb. destruct Hb as [Hb E].
    apply String.eqb_eq in E. now elim (Hnone b Hb).
  - intros studentId o Eo Hnone.
    unfold getBatchesByStudentId, Batch_find_students. rewrite Eo. simpl.
    destruct (filter _ (Db.batches db)) as [ | b r ] eqn:F; trivial.
    assert (Hb : In b (filter (fun b => existsb (String.eqb o)
                                          (Batch.students b))
                         (Db.batches db))) by (rewrite F; now left).
    apply filter_In in Hb. destruct Hb as [Hb E].
    apply existsb_String_eqb in E. now elim (Hnone b Hb).
Qed.
End BatchLookups.

Lemma batch_lookup_errors_witness :
  @getBatchesByTeacherId hexOdm Sample.db_with_batch
    (Some (mkUser (JStr "student"))) Sample.teacher
  = json 403 (Message "Access denied: Not a teacher")
  /\ @getBatchesByTeacherId hexOdm Sample.db_with_batch
       (Some (mkUser (JStr "teacher"))) Sample.other_teacher
     = json 404 (Message "No batches found for this teacher")
  /\ @getBatchesByStudentId hexOdm Sample.db_with_batch Sample.carol_id
     = json 200 (BatchArray []).
Proof.
  split; [ | split ].
  - apply (@batch_lookup_errors hexOdm Sample.db_with_batch). discriminate.
  - apply (proj1 (proj2 (@batch_lookup_errors hexOdm Sample.db_with_batch)))
      with (t := Sample.other_teacher).
    + reflexivity.
    + reflexivity.
    + intros b [<- | []]. discriminate.
  - apply (proj2 (proj2 (@batch_lookup_errors hexOdm Sample.db_with_batch)))
      with (o := Sample.carol_id).
    + reflexivity.
    + intros b [<- | []]. simpl. intuition discriminate.
Defined.

(** ** deleteStudent *)

Section DeleteStudent.
Context {odm : Odm}.

Lemma find_none_iff (p : Student.t -> bool) (l : list Student.t) :
  find p l = None <-> forall s, In s l -> p s = false.
Proof.
  split.
  - intros H s Hs. exact (find_none p l H s Hs).
  - induction l as [ | x r IH ]; simpl; intros H; trivial.
    rewrite (H x (or_introl eq_refl)). apply IH. intros s Hs. apply H. now right.
Qed.

(** The first document that satisfies [p] is the one that goes. *)
Lemma remove_first_split (p : Student.t -> bool) (l : list Student.t)
    (s : Student.t) :
  find p l = Some s ->
  exists before after,
    l = before ++ s :: after
    /\ (forall x, In x before -> p x = false)
    /\ p s = true
    /\ remove_first p l = before ++ after.
Proof.
  induction l as [ | x r IH ]; simpl; intros H; try discriminate.
  destruct (p x) eqn:E.
  - injection H as <-. exists [], r. simpl.
    repeat split; trivial. intros y [].
  - destruct (IH H) as (before & after & -> & Hb & Hs & Hr).
    exists (x :: before), after. simpl. rewrite Hr.
    repeat split; trivial.
    intros y [<- | Hy]; auto.
Qed.

(** C7 (amended): an id that is not well-formed is answered 400.  For a
    well-formed id, [deleteStudent] answers 404 exactly when no student has
    its [student_id] field equal to the id, and then changes nothing;
    otherwise it answers 200 and removes the first student whose
    [student_id] field equals the id, and only that one. *)
Theorem deleteStudent_by_student_id_field (db : Db.t) (id : string) :
  (ObjectId_isValid (JStr id) = false ->
   deleteStudent db id = (json 400 (Error "Invalid student ID format."), db))
  /\ (forall o : ObjectId,
        ObjectId_isValid (JStr id) = true ->
        ObjectId_new (JStr id) = Some o ->
        (status (fst (deleteStudent db id)) = 404%nat <->
         forall s, In s (Db.students db) -> Student.student_id s <> JOid o)
        /\ ((forall s, In s (Db.students db) ->
                       Student.student_id s <> JOid o) ->
            deleteStudent db id = (json 404 (Error "Student not found"), db))
        /\ (forall s, In s (Db.students db) ->
                      Student.student_id s = JOid o ->
            exists before gone after,
              Db.students db = before ++ gone :: after
              /\ (forall x, In x before -> Student.student_id x <> JOid o)
              /\ Student.student_id gone = JOid o
              /\ deleteStudent db id
                 = (json 200 (Message "Student deleted successfully"),
                    Db.with_students (before ++ after) db))).
Proof.
  split.
  - intros H. unfold deleteStudent. now rewrite H.
  - intros o Hvalid Eo.
    assert (Hnone : (forall s, In s (Db.students db) ->
                               Student.student_id s <> JOid o) ->
                    deleteStudent db id
                    = (json 404 (Error "Student not found"), db)).
    { intros H. unfold deleteStudent, Student_findOneAndDelete_student_id.
      rewrite Hvalid, Eo. simpl.
      replace (find (student_id_is o) (Db.students db)) with (@None Student.t);
        trivial.
      symmetry. apply find_none_iff. intros s Hs. unfold student_id_is.
      destruct (js_eqb (Student.student_id s) (JOid o)) eqn:E; trivial.
      apply js_eqb_eq in E. now elim (H s Hs). }
    assert (Hsome : forall s, In s (Db.students db) ->
                      Student.student_id s = JOid o ->
              exists before gone after,
                Db.students db = before ++ gone :: after
                /\ (forall x, In x before -> Student.student_id x <> JOid o)
                /\ Student.student_id gone = JOid o
                /\ deleteStudent db id
                   = (json 200 (Message "Student deleted successfully"),
                      Db.with_students (before ++ after) db)).
    { intros s Hs Es.
      destruct (find (student_id_is o) (Db.students db)) as [g | ] eqn:F.
      - destruct (remove_first_split _ _ F) as (before & after & El & Hb & Hg & Hr).
        exists before, g, after. repeat split; trivial.
        + intros x Hx E. apply Hb in Hx. unfold student_id_is in Hx.
          rewrite E, js_eqb_refl in Hx. discriminate.
        + now apply js_eqb_eq.
        + unfold deleteStudent, Student_findOneAndDelete_student_id.
          rewrite Hvalid, Eo. simpl. now rewrite F, Hr.
      - exfalso. rewrite find_none_iff in F. specialize (F s Hs).
        unfold student_id_is in F. rewrite Es, js_eqb_refl in F.
        discriminate. }
    split; [ | split ]; trivial.
    split.
    + intros H404 s Hs Es.
      destruct (Hsome s Hs Es) as (b & g & a & _ & _ & _ & E).
      rewrite E in H404. discriminate.
    + intros H. now rewrite (Hnone H).
Qed.
End DeleteStudent.

(** Against C7 as the specification words it: the student fetched under
    [alice_id] is not deleted under [alice_id] (the answer is 404 and
    nothing changes); the record goes under the value of its [student_id]
    field, an id under which nothing is fetched. *)
Lemma deleteStudent_not_by_id :
  @getStudentById hexOdm Sample.db Sample.alice_id
  = json 200 (StudentDoc Sample.alice)
  /\ @deleteStudent hexOdm Sample.db Sample.alice_id
     = (json 404 (Error "Student not found"), Sample.db)
  /\ @getStudentById hexOdm Sample.db "5a0000000000000000000001"
     = json 404 (Error "Student not found.")
  /\ @deleteStudent hexOdm Sample.db "5a0000000000000000000001"
     = (json 200 (Message "Student deleted successfully"),
        Db.with_students [Sample.bob; Sample.carol] Sample.db).
Proof. vm_compute. auto. Qed.

Lemma deleteStudent_by_student_id_field_witness :
  exists before gone after,
    Db.students Sample.db = before ++ gone :: after
    /\ (forall x, In x before ->
          Student.student_id x <> JOid "5a0000000000000000000002")
    /\ Student.student_id gone = JOid "5a0000000000000000000002"
    /\ @deleteStudent hexOdm Sample.db "5a0000000000000000000002"
       = (json 200 (Message "Student deleted successfully"),
          Db.with_students (before ++ after) Sample.db).
Proof.
  apply (proj2 (@deleteStudent_by_student_id_field hexOdm Sample.db
                  "5a0000000000000000000002")
           "5a0000000000000000000002" eq_refl eq_refl)
    with (s := Sample.bob).
  - simpl. auto.
  - reflexivity.
Defined.

(** ** createStudent *)

Section CreateStudent.
Context {odm : Odm}.


End CreateStudent.



(** ** updateStudent *)

Section UpdateStudent.
Context {odm : Odm}.

Lemma findById_replace (o : ObjectId) (s' : Student.t) (l : list Student.t) :
  Student_findById o (replace_by_id s' l)
  = match Student_findById o l with
    | Some x => Some (if o =? Student._id s' then s' else x)
    | None => None
    end.
Proof.
  unfold Student_findById.
  induction l as [ | x r IH ]; simpl; trivial.
  destruct (Student._id x =? Student._id s') eqn:E'; simpl.
  - apply String.eqb_eq in E'. rewrite <- E', (String.eqb_sym o).
    destruct (Student._id x =? o) eqn:E; trivial.
    now destruct (find _ r).
  - destruct (Student._id x =? o) eqn:E; trivial.
    apply String.eqb_eq in E. rewrite <- E, E'. reflexivity.
Qed.

Lemma findById_wf (s : Student.t) (l : list Student.t) :
  NoDup (map Student._id l) -> In s l ->
  Student_findById (Student._id s) l = Some s.
Proof.
  unfold Student_findById.
  induction l as [ | x r IH ]; simpl; intros Hwf Hs; [ contradiction | ].
  inversion Hwf as [ | ? ? Hnotin Hr ]; subst.
  destruct Hs as [-> | Hs].
  - now rewrite String.eqb_refl.
  - destruct (Student._id x =? Student._id s) eqn:E; auto.
    apply String.eqb_eq in E. elim Hnotin. rewrite E. now apply in_map.
Qed.

Lemma omitted_kept_refl (body : UpdateStudentBody.t) (s : Student.t) :
  omitted_kept body s s.
Proof. unfold omitted_kept. tauto. Qed.

(** What the nine assignments leave in the document. *)
Lemma assign_updateData_inr (body : UpdateStudentBody.t)
    (s updated : Student.t) :
  assign_updateData body s = inr updated ->
  assign_or (Student_cast "auth_id") (UpdateStudentBody.auth_id body)
    (Student.auth_id s)
  = Some (Student.auth_id updated)
  /\ assign_or castReference (UpdateStudentBody.student_id body)
       (Student.student_id s) = Some (Student.student_id updated)
  /\ assign_or castReference (UpdateStudentBody.user_id body)
       (Student.user_id s) = Some (Student.user_id updated)
  /\ assign_or castReference (UpdateStudentBody.subscribed_Package body)
       (Student.subscribed_Package s)
     = Some (Student.subscribed_Package updated)
  /\ assign_defined castBoolean (UpdateStudentBody.is_paid body)
       (Student.is_paid s) = Some (Student.is_paid updated)
  /\ assign_or (Student_cast "subscription_id")
       (UpdateStudentBody.subscription_id body)
       (Student.subscription_id s) = Some (Student.subscription_id updated)
  /\ assign_or (Student_cast "payment_id")
       (UpdateStudentBody.payment_id body)
       (Student.payment_id s) = Some (Student.payment_id updated)
  /\ assign_or (Student_cast "last_online")
       (UpdateStudentBody.last_online body)
       (Student.last_online s) = Some (Student.last_online updated)
  /\ assign_or (Student_cast "phone_number")
       (UpdateStudentBody.phone_number body)
       (Student.phone_number s) = Some (Student.phone_number updated)
  /\ Student._id updated = Student._id s
  /\ Student.role updated = Student.role s
  /\ Student.class updated = Student.class s
  /\ Student.subject_id updated = Student.subject_id s
  /\ Student.board_id updated = Student.board_id s
  /\ Student.created_at updated = Student.created_at s
  /\ Student.batch_creation updated = Student.batch_creation s.
Proof.
  unfold assign_updateData.
  destruct (assign_or (Student_cast "auth_id")
              (UpdateStudentBody.auth_id body) _);
    [ | discriminate ].
  destruct (assign_or castReference (UpdateStudentBody.student_id body) _);
    [ | discriminate ].
  destruct (assign_or castReference (UpdateStudentBody.user_id body) _);
    [ | discriminate ].
  destruct (assign_or castReference
              (UpdateStudentBody.subscribed_Package body) _);
    [ | discriminate ].
  destruct (assign_defined castBoolean (UpdateStudentBody.is_paid body) _);
    [ | discriminate ].
  destruct (assign_or (Student_cast "subscription_id")
              (UpdateStudentBody.subscription_id body) _);
    [ | discriminate ].
  destruct (assign_or (Student_cast "payment_id")
              (UpdateStudentBody.payment_id body) _);
    [ | discriminate ].
  destruct (assign_or (Student_cast "last_online")
              (UpdateStudentBody.last_online body) _);
    [ | discriminate ].
  destruct (assign_or (Student_cast "phone_number")
              (UpdateStudentBody.phone_number body) _);
    [ | discriminate ].
  simpl. intros E. injection E as <-. simpl. repeat split.
Qed.

Lemma assign_or_undefined (cast : JsValue -> option JsValue)
    (prior stored : JsValue) :
  assign_or cast JUndefined prior = Some stored -> stored = prior.
Proof. unfold assign_or. simpl. congruence. Qed.

(** What the class snapshot leaves of the loaded document. *)
Lemma reclassed_rest (db : Db.t) (class_id : JsValue)
    (student student' : Student.t) :
  reclassed db class_id student student' ->
  (class_id = JUndefined -> student' = student)
  /\ Student.with_class (Student.class student) student' = student.
Proof.
  intros Hc. split.
  - intros ->. destruct Hc as [[_ ->] | [Ht _]]; trivial. discriminate.
  - destruct Hc as [[_ ->] | [_ (o & c & _ & _ & ->)]];
      now destruct student.
Qed.

Lemma omitted_kept_assign (db : Db.t) (body : UpdateStudentBody.t)
    (student student' updated : Student.t) :
  reclassed db (UpdateStudentBody.class_id body) student student' ->
  assign_updateData body student' = inr updated ->
  omitted_kept body student updated.
Proof.
  intros Hc Ha.
  destruct (reclassed_rest Hc) as [Hclass Hrest].
  destruct (assign_updateData_inr _ _ Ha)
    as (Eauth & Esid & Euid & Epkg & Epaid & Esub & Epay & Elast & Ephone
        & Eid & Erole & Eclass & Esubj & Eboard & Ecreated & Ebc).
  rewrite <- Hrest. unfold omitted_kept. simpl.
  rewrite Eid, Erole, Esubj, Eboard, Ecreated, Ebc.
  split; [ intros E; rewrite Eclass, (Hclass E), <- Hrest; reflexivity | ].
  split; [ intros E; rewrite E in Eauth;
           exact (assign_or_undefined Eauth) | ].
  split; [ intros E; rewrite E in Esid;
           exact (assign_or_undefined Esid) | ].
  split; [ intros E; rewrite E in Euid;
           exact (assign_or_undefined Euid) | ].
  split; [ intros E; rewrite E in Epkg;
           exact (assign_or_undefined Epkg) | ].
  split; [ intros E; rewrite E in Epaid; simpl in Epaid; congruence | ].
  split; [ intros E; rewrite E in Esub;
           exact (assign_or_undefined Esub) | ].
  split; [ intros E; rewrite E in Epay;
           exact (assign_or_undefined Epay) | ].
  split; [ intros E; rewrite E in Elast;
           exact (assign_or_undefined Elast) | ].
  split; [ intros E; rewrite E in Ephone;
           exact (assign_or_undefined Ephone) | ].
  repeat split.
Qed.

(** The run of [updateStudent] on a request that goes through. *)
Lemma updateStudent_run (db : Db.t) (studentId : string)
    (body : UpdateStudentBody.t) (found student' updated : Student.t) :
  found_student db studentId found ->
  reclassed db (UpdateStudentBody.class_id body) (Student_init found)
    student' ->
  assign_updateData body student' = inr updated ->
  Student_validate updated = true ->
  updateStudent db studentId body
  = (json 200 (MessageStudent "Student updated successfully" updated),
     Db.with_students (replace_by_id updated (Db.students db)) db).
Proof.
  intros [u [Eu F]] Hc Ha Hv.
  unfold updateStudent, Student_findOne_user_id, updateStudent_finish,
    Student_save, Class_findById.
  rewrite Eu. simpl. rewrite F. simpl.
  destruct Hc as [[Et ->] | [Et (o & c & Eo & Fc & ->)]]; rewrite Et.
  - rewrite Ha. simpl. now rewrite Hv.
  - rewrite Eo. simpl. rewrite Fc, Ha. simpl. now rewrite Hv.
Qed.

(** The last part of the handler, by itself. *)
Lemma updateStudent_finish_outcome (db : Db.t) (body : UpdateStudentBody.t)
    (student' : Student.t) (r : Response * Db.t) :
  match updateStudent_finish db body student' with
  | inr r => r
  | inl _ => (json 500 (Error "Internal server error"), db)
  end = r ->
  (snd r = db /\ status (fst r) <> 200%nat)
  \/ exists updated,
       assign_updateData body student' = inr updated
       /\ Student_validate updated = true
       /\ r = (json 200
                 (MessageStudent "Student updated successfully" updated),
               Db.with_students (replace_by_id updated (Db.students db)) db).
Proof.
  intros <-. unfold updateStudent_finish, Student_save.
  destruct (assign_updateData body student') as [e | updated]; simpl.
  - left. split; [ reflexivity | discriminate ].
  - destruct (Student_validate updated) eqn:Ev; simpl.
    + right. exists updated. auto.
    + left. split; [ reflexivity | discriminate ].
Qed.

(** What [updateStudent] does to the database: nothing, with an answer
    other than 200, or the loaded student with the request's fields
    assigned is stored over the one found. *)
Lemma updateStudent_outcome (db : Db.t) (studentId : string)
    (body : UpdateStudentBody.t) :
  (snd (updateStudent db studentId body) = db
   /\ status (fst (updateStudent db studentId body)) <> 200%nat)
  \/ exists found student' updated,
       found_student db studentId found
       /\ reclassed db (UpdateStudentBody.class_id body) (Student_init found)
            student'
       /\ assign_updateData body student' = inr updated
       /\ Student_validate updated = true
       /\ updateStudent db studentId body
          = (json 200
               (MessageStudent "Student updated successfully" updated),
             Db.with_students (replace_by_id updated (Db.students db)) db).
Proof.
  destruct (ObjectId_new (JStr studentId)) as [u | ] eqn:Eu.
  2: { left. unfold updateStudent, Student_findOne_user_id. rewrite Eu. simpl.
       split; [ reflexivity | discriminate ]. }
  destruct (find (fun s => js_eqb (Student.user_id s) (JOid u))
              (Db.students db)) as [found | ] eqn:F.
  2: { left. unfold updateStudent, Student_findOne_user_id. rewrite Eu. simpl.
       rewrite F. simpl. split; [ reflexivity | discriminate ]. }
  assert (Hl : found_student db studentId found) by (exists u; auto).
  destruct (truthy (UpdateStudentBody.class_id body)) eqn:Et.
  - destruct (ObjectId_new (UpdateStudentBody.class_id body)) as [o | ] eqn:Eo.
    2: { left. unfold updateStudent, Student_findOne_user_id, Class_findById.
         rewrite Eu. simpl. rewrite F. simpl. rewrite Et, Eo. simpl.
         split; [ reflexivity | discriminate ]. }
    destruct (find (fun c => Class_._id c =? o) (Db.classes db))
      as [c | ] eqn:Fc.
    2: { left. unfold updateStudent, Student_findOne_user_id, Class_findById.
         rewrite Eu. simpl. rewrite F. simpl. rewrite Et, Eo. simpl.
         rewrite Fc. split; [ reflexivity | discriminate ]. }
    assert (Hc : reclassed db (UpdateStudentBody.class_id body)
                   (Student_init found)
                   (Student.with_class (class_snapshot c)
                      (Student_init found)))
      by (right; split; trivial; exists o, c; auto).
    assert (E : match updateStudent_finish db body
                        (Student.with_class (class_snapshot c)
                           (Student_init found)) with
                | inr r => r
                | inl _ => (json 500 (Error "Internal server error"), db)
                end = updateStudent db studentId body).
    { unfold updateStudent, Student_findOne_user_id, Class_findById.
      rewrite Eu. simpl. rewrite F. simpl. rewrite Et, Eo. simpl.
      now rewrite Fc. }
    destruct (updateStudent_finish_outcome _ _ _ E)
      as [H | (updated & Ha & Hv & Er)]; [ left; exact H | ].
    right.
    exists found, (Student.with_class (class_snapshot c) (Student_init found)),
      updated.
    auto.
  - assert (Hc : reclassed db (UpdateStudentBody.class_id body)
                   (Student_init found) (Student_init found))
      by (left; auto).
    assert (E : match updateStudent_finish db body (Student_init found) with
                | inr r => r
                | inl _ => (json 500 (Error "Internal server error"), db)
                end = updateStudent db studentId body).
    { unfold updateStudent, Student_findOne_user_id.
      rewrite Eu. simpl. rewrite F. simpl. now rewrite Et. }
    destruct (updateStudent_finish_outcome _ _ _ E)
      as [H | (updated & Ha & Hv & Er)]; [ left; exact H | ].
    right. exists found, (Student_init found), updated. auto.
Qed.

Lemma found_student_stored (db : Db.t) (studentId : string)
    (found : Student.t) :
  Db.wf db -> found_student db studentId found ->
  Student_findById (Student._id found) (Db.students db) = Some found.
Proof.
  intros Hwf [u [_ F]]. apply findById_wf; trivial.
  now destruct (find_some _ _ F).
Qed.

(** C9 (amended): after any update request every stored student is as it
    was, or agrees, on each field the request omits, with what it was when
    it was loaded: the stored document with the schema's defaults on the
    paths it lacked.  When the request goes through, the stored record is
    the loaded student with the request's fields assigned: an [is_paid] of
    [false] is stored as [false], an [is_paid] that is [undefined] leaves
    the loaded value. *)
Theorem updateStudent_partial_update
    (db : Db.t) (studentId : string) (body : UpdateStudentBody.t) :
  Db.wf db ->
  (forall (o : ObjectId) (s : Student.t),
      Student_findById o (Db.students db) = Some s ->
      exists s',
        Student_findById o (Db.students (snd (updateStudent db studentId body)))
        = Some s'
        /\ (s' = s \/ omitted_kept body (Student_init s) s'))
  /\ (forall found student' updated : Student.t,
        found_student db studentId found ->
        reclassed db (UpdateStudentBody.class_id body) (Student_init found)
          student' ->
        assign_updateData body student' = inr updated ->
        Student_validate updated = true ->
        fst (updateStudent db studentId body)
        = json 200 (MessageStudent "Student updated successfully" updated)
        /\ Student_findById (Student._id found)
             (Db.students (snd (updateStudent db studentId body)))
           = Some updated
        /\ omitted_kept body (Student_init found) updated
        /\ (UpdateStudentBody.is_paid body = JBool false ->
            Student.is_paid updated = JBool false)
        /\ (UpdateStudentBody.is_paid body = JUndefined ->
            Student.is_paid updated = Student.is_paid (Student_init found)))
  /\ (status (fst (updateStudent db studentId body)) = 200%nat ->
      exists found updated : Student.t,
        found_student db studentId found
        /\ fst (updateStudent db studentId body)
           = json 200 (MessageStudent "Student updated successfully" updated)
        /\ Student_findById (Student._id found)
             (Db.students (snd (updateStudent db studentId body)))
           = Some updated
        /\ omitted_kept body (Student_init found) updated
        /\ (UpdateStudentBody.is_paid body = JBool false ->
            Student.is_paid updated = JBool false)
        /\ (UpdateStudentBody.is_paid body = JUndefined ->
            Student.is_paid updated = Student.is_paid (Student_init found))).
Proof.
  intros Hwf.
  assert (Hid : forall found student' updated,
             reclassed db (UpdateStudentBody.class_id body)
               (Student_init found) student' ->
             assign_updateData body student' = inr updated ->
             Student._id updated = Student._id found).
  { intros found student' updated Hc Ha.
    now destruct (omitted_kept_assign body Hc Ha)
      as (_ & _ & _ & _ & _ & _ & _ & _ & _ & _ & H & _). }
  assert (Hthrough : forall found student' updated : Student.t,
             found_student db studentId found ->
             reclassed db (UpdateStudentBody.class_id body)
               (Student_init found) student' ->
             assign_updateData body student' = inr updated ->
             Student_validate updated = true ->
             fst (updateStudent db studentId body)
             = json 200
                 (MessageStudent "Student updated successfully" updated)
             /\ Student_findById (Student._id found)
                  (Db.students (snd (updateStudent db studentId body)))
                = Some updated
             /\ omitted_kept body (Student_init found) updated
             /\ (UpdateStudentBody.is_paid body = JBool false ->
                 Student.is_paid updated = JBool false)
             /\ (UpdateStudentBody.is_paid body = JUndefined ->
                 Student.is_paid updated
                 = Student.is_paid (Student_init found))).
  { intros found student' updated Hl Hc Ha Hv.
    rewrite (updateStudent_run body Hl Hc Ha Hv). simpl.
    split; [ reflexivity | ].
    split.
    { rewrite findById_replace, (found_student_stored Hwf Hl).
      now rewrite (Hid _ _ _ Hc Ha), String.eqb_refl. }
    pose proof (omitted_kept_assign body Hc Ha) as Hk.
    split; [ exact Hk | ].
    split; [ | apply Hk ].
    intros E.
    destruct (assign_updateData_inr _ _ Ha)
      as (_ & _ & _ & _ & Epaid & _).
    rewrite E in Epaid. simpl in Epaid. congruence. }
  split; [ | split; [ exact Hthrough | ] ].
  - intros o s Es.
    destruct (updateStudent_outcome db studentId body)
      as [[-> _] | (found & student' & updated & Hl & Hc & Ha & _ & ->)].
    + exists s. auto.
    + simpl. rewrite findById_replace, Es.
      destruct (o =? Student._id updated) eqn:E.
      * eexists. split; [ reflexivity | ]. right.
        apply String.eqb_eq in E. rewrite (Hid _ _ _ Hc Ha) in E.
        rewrite E, (found_student_stored Hwf Hl) in Es.
        injection Es as <-. exact (omitted_kept_assign body Hc Ha).
      * exists s. auto.
  - intros H200.
    destruct (updateStudent_outcome db studentId body)
      as [[_ Hno] | (found & student' & updated & Hl & Hc & Ha & Hv & _)].
    + contradiction.
    + exists found, updated. split; [ exact Hl | ].
      exact (Hthrough _ _ _ Hl Hc Ha Hv).
Qed.
End UpdateStudent.

(** Against C9 as the specification words it: [carol] is stored without a
    [batch_creation] array; an update that names only [is_paid] stores her
    back with an empty one. *)
Lemma updateStudent_writes_defaults :
  Student_findById Sample.carol_id (Db.students Sample.db)
  = Some Sample.carol
  /\ Student.batch_creation Sample.carol = None
  /\ exists stored,
       Student_findById Sample.carol_id
         (Db.students
            (snd (@updateStudent hexOdm Sample.db "0a0000000000000000000003"
                    Sample.unsubscribe)))
       = Some stored
       /\ Student.batch_creation stored = Some [].
Proof.
  split; [ reflexivity | ]. split; [ reflexivity | ].
  eexists. split; [ vm_compute; reflexivity | reflexivity ].
Qed.

Lemma updateStudent_partial_update_witness :
  exists found updated : Student.t,
    @found_student hexOdm Sample.db "0a0000000000000000000003" found
    /\ fst (@updateStudent hexOdm Sample.db "0a0000000000000000000003"
              Sample.unsubscribe)
       = json 200 (MessageStudent "Student updated successfully" updated)
    /\ Student_findById (Student._id found)
         (Db.students
            (snd (@updateStudent hexOdm Sample.db "0a0000000000000000000003"
                    Sample.unsubscribe)))
       = Some updated
    /\ omitted_kept Sample.unsubscribe (@Student_init hexOdm found) updated
    /\ (UpdateStudentBody.is_paid Sample.unsubscribe = JBool false ->
        Student.is_paid updated = JBool false)
    /\ (UpdateStudentBody.is_paid Sample.unsubscribe = JUndefined ->
        Student.is_paid updated
        = Student.is_paid (@Student_init hexOdm found)).
Proof.
  apply (proj2 (proj2 (@updateStudent_partial_update hexOdm Sample.db
                         "0a0000000000000000000003" Sample.unsubscribe
                         Sample_db_wf))).
  reflexivity.
Defined.

(** ** The eligibility query *)

Section Eligibility.
Context {odm : Odm}.

Lemma subscribed_in_iff (packageIds : list ObjectId) (s : Student.t) :
  subscribed_in packageIds s = true <->
  exists p, Student.subscribed_Package s = JOid p /\ In p packageIds.
Proof.
  unfold subscribed_in. split.
  - destruct (Student.subscribed_Package s); try discriminate.
    intros H. apply existsb_String_eqb in H. eauto.
  - intros [p [-> H]]. now apply existsb_String_eqb.
Qed.

Lemma elemMatch_false_iff (subject : ObjectId) (l : list Marker.t) :
  existsb (fun m => (Marker.subject_id m =? subject)
                    && Bool.eqb (Marker.status m) true) l = false <->
  forall m, In m l ->
    ~ (Marker.subject_id m = subject /\ Marker.status m = true).
Proof.
  split.
  - intros H m Hm [Es Et].
    assert (E : existsb (fun m => (Marker.subject_id m =? subject)
                                  && Bool.eqb (Marker.status m) true) l
                = true).
    { apply existsb_exists. exists m. split; trivial.
      rewrite Es, Et, String.eqb_refl. reflexivity. }
    congruence.
  - intros H.
    destruct (existsb _ l) eqn:E; trivial.
    apply existsb_exists in E. destruct E as [m [Hm E]].
    apply andb_prop in E. destruct E as [Es Et].
    apply String.eqb_eq in Es. apply Bool.eqb_prop in Et.
    now elim (H m Hm).
Qed.

(** The filter of the query selects the students the specification calls
    eligible. *)
Lemma eligibility_filter_iff (packageIds : list ObjectId)
    (subject : ObjectId) (s : Student.t) :
  eligibility_filter packageIds subject s = true <->
  eligible packageIds subject s.
Proof.
  unfold eligibility_filter, eligible.
  rewrite !andb_true_iff, subscribed_in_iff.
  unfold is_paid_true. rewrite js_eqb_eq.
  unfold batch_creation_absent, batch_creation_size0, elemMatch_subject_true.
  destruct (Student.batch_creation s) as [l | ].
  - rewrite !orb_true_iff, negb_true_iff, elemMatch_false_iff.
    split.
    + intros [[Hp Hpaid] Hbc]. repeat split; trivial.
      destruct Hbc as [[H | H] | H]; try discriminate.
      * destruct l; try discriminate. auto.
      * right. right. exists l. auto.
    + intros (Hp & Hpaid & Hbc). repeat split; trivial.
      destruct Hbc as [H | [H | [l' [E H]]]]; try discriminate.
      * injection H as ->. auto.
      * injection E as ->. auto.
  - simpl. tauto.
Qed.

Lemma Subject_exists_true (l : list Subject.t) (subject : ObjectId) :
  (exists x, In x l /\ Subject._id x = subject) ->
  existsb (fun x => Subject._id x =? subject) l = true.
Proof.
  intros [x [Hx E]]. apply existsb_exists. exists x. split; trivial.
  rewrite E. apply String.eqb_refl.
Qed.

(** C3: for an id that names a stored subject included in at least one
    package, the query selects exactly the stored students that are
    subscribed to a package of that set, paid, and whose [batch_creation]
    is absent, empty, or without an entry that has both the subject and
    [status: true]; these students, references resolved, are the answer
    (404 when there is none).  A student whose markers for the subject all
    have [status: false] is selected; a student with [is_paid: false] never
    is. *)
Theorem eligibility_query_exact
    (db : Db.t) (subjectId : string) (subject : ObjectId) :
  ObjectId_isValid (JStr subjectId) = true ->
  ObjectId_new (JStr subjectId) = Some subject ->
  (exists x, In x (Db.subjects db) /\ Subject._id x = subject) ->
  package_set db subject <> [] ->
  (forall s,
      In s (filter (eligibility_filter (package_set db subject) subject)
              (Db.students db)) <->
      In s (Db.students db) /\ eligible (package_set db subject) subject s)
  /\ getStudentsforBatchBySubject db subjectId
     = match filter (eligibility_filter (package_set db subject) subject)
               (Db.students db) with
       | [] => json 404 (Message "No eligible students found for this subject")
       | selected =>
           json 200
             (MessageData "Students retrieved successfully"
                (map (Student_populate db populate_eligible) selected))
       end
  /\ (forall s l,
        In s (Db.students db) ->
        subscribed_in (package_set db subject) s = true ->
        Student.is_paid s = JBool true ->
        Student.batch_creation s = Some l ->
        (forall m, In m l -> Marker.subject_id m = subject ->
                   Marker.status m = false) ->
        In s (filter (eligibility_filter (package_set db subject) subject)
                (Db.students db)))
  /\ (forall s,
        Student.is_paid s = JBool false ->
        ~ In s (filter (eligibility_filter (package_set db subject) subject)
                  (Db.students db))).
Proof.
  intros Hvalid Esubject Hexists Hpackages.
  split; [ | split; [ | split ] ].
  - intros s. rewrite filter_In, eligibility_filter_iff. tauto.
  - unfold getStudentsforBatchBySubject, Subject_exists,
      Package_find_subject_id.
    rewrite Hvalid, Esubject. simpl.
    rewrite (Subject_exists_true _ Hexists). simpl.
    fold (package_set db subject).
    destruct (package_set db subject) as [ | p ps ] eqn:Ep;
      [ now elim Hpackages | ].
    simpl.
    destruct (filter _ (Db.students db)) as [ | s r ]; reflexivity.
  - intros s l Hs Hsub Hpaid Hbc Hfalse.
    apply filter_In. split; trivial.
    apply eligibility_filter_iff. repeat split; trivial.
    + now apply subscribed_in_iff.
    + right. right. exists l. split; trivial.
      intros m Hm [Es Et]. rewrite (Hfalse m Hm Es) in Et. discriminate.
  - intros s Hpaid Hs. apply filter_In in Hs. destruct Hs as [_ Hs].
    apply eligibility_filter_iff in Hs. destruct Hs as (_ & E & _).
    congruence.
Qed.
End Eligibility.

Lemma eligibility_query_exact_witness :
  @getStudentsforBatchBySubject hexOdm Sample.db Sample.maths
  = json 200
      (MessageData "Students retrieved successfully" [Sample.alice; Sample.bob])
  /\ In Sample.bob
       (filter (eligibility_filter (package_set Sample.db Sample.maths)
                  Sample.maths)
          (Db.students Sample.db))
  /\ ~ In Sample.carol
         (filter (eligibility_filter (package_set Sample.db Sample.maths)
                    Sample.maths)
            (Db.students Sample.db)).
Proof.
  destruct (@eligibility_query_exact hexOdm Sample.db Sample.maths Sample.maths)
    as (_ & Hanswer & Hfalse & Hunpaid).
  - reflexivity.
  - reflexivity.
  - exists (Subject.mk Sample.maths (JStr "Maths")). simpl. auto.
  - discriminate.
  - split; [ exact Hanswer | split ].
    + apply (Hfalse Sample.bob [Marker.mk Sample.maths false]).
      * simpl. auto.
      * reflexivity.
      * reflexivity.
      * reflexivity.
      * intros m [<- | []] _. reflexivity.
    + apply Hunpaid. reflexivity.
Defined.

(** * Further properties *)

(** ** createBatch: what it leaves alone *)

Section CreateBatchFrame.
Context {odm : Odm}.

Lemma updateOne_ids (o : ObjectId) (m : Marker.t) (l : list Student.t) :
  map Student._id (updateOne_addToSet o m l) = map Student._id l.
Proof.
  induction l as [ | s r IH ]; simpl; trivial.
  destruct (Student._id s =? o); simpl; [ reflexivity | now rewrite IH ].
Qed.

Lemma applyBulkOps_ids (ops : list (ObjectId * Marker.t)) :
  forall l : list Student.t,
  map Student._id (applyBulkOps ops l) = map Student._id l.
Proof.
  unfold applyBulkOps.
  induction ops as [ | op r IH ]; intros l; simpl; trivial.
  now rewrite IH, updateOne_ids.
Qed.

(** Whatever the outcome, the database after [createBatch] is the one
    before, or the one before with the batch inserted and the roster
    marked. *)
Lemma createBatch_db (db : Db.t) (body : CreateBatchBody) (fresh : ObjectId) :
  snd (createBatch db body fresh) = db
  \/ exists roster b,
       students body = JArr roster
       /\ Batch_new fresh body roster = Some b
       /\ createBatch db body fresh
          = (json 201 (Message "Batch created successfully"),
             batch_created db b).
Proof.
  rewrite createBatch_outcome_eq. unfold createBatch_outcome.
  destruct (negb (all_required body)); auto.
  destruct (students body) as [ | | | | | | roster | ]; auto.
  destruct (castRefs roster) as [ids | ]; auto.
  destruct (_ =? _)%nat; auto.
  destruct (Batch_new fresh body roster) as [b | ] eqn:Eb; auto.
  destruct (Batch_validate b); auto.
  right. exists roster, b. auto.
Qed.

(** X1: [createBatch] never adds, removes or reorders a student, so the
    uniqueness of [_id] survives it; it never touches subjects, packages or
    classes; and the batches after it are the batches before it, followed
    by at most the one new batch, which carries the generated [_id]. *)
Theorem createBatch_frame
    (db : Db.t) (body : CreateBatchBody) (fresh : ObjectId) :
  map Student._id (Db.students (snd (createBatch db body fresh)))
  = map Student._id (Db.students db)
  /\ (Db.wf db -> Db.wf (snd (createBatch db body fresh)))
  /\ (Db.batches (snd (createBatch db body fresh)) = Db.batches db
      \/ exists b, Batch._id b = fresh
                   /\ Db.batches (snd (createBatch db body fresh))
                      = Db.batches db ++ [b])
  /\ Db.subjects (snd (createBatch db body fresh)) = Db.subjects db
  /\ Db.packages (snd (createBatch db body fresh)) = Db.packages db
  /\ Db.classes (snd (createBatch db body fresh)) = Db.classes db.
Proof.
  assert (Hids : map Student._id (Db.students (snd (createBatch db body fresh)))
                 = map Student._id (Db.students db)).
  { destruct (createBatch_db db body fresh) as [-> | (roster & b & _ & _ & ->)];
      trivial.
    simpl. apply applyBulkOps_ids. }
  split; [ exact Hids | ].
  split; [ unfold Db.wf; now rewrite Hids | ].
  destruct (createBatch_db db body fresh) as [-> | (roster & b & _ & Eb & ->)].
  - auto.
  - simpl. repeat split; trivial.
    right. exists b. split; trivial.
    now destruct (Batch_new_Some _ _ _ Eb) as (_ & _ & Hid).
Qed.

Lemma Forall2_same (R : Student.t -> Student.t -> Prop) (l : list Student.t) :
  (forall s, R s s) -> Forall2 R l l.
Proof. intros H. induction l; constructor; auto. Qed.

Lemma Forall2_compose (P Q R : Student.t -> Student.t -> Prop)
    (l1 l2 l3 : list Student.t) :
  (forall a b c, P a b -> Q b c -> R a c) ->
  Forall2 P l1 l2 -> Forall2 Q l2 l3 -> Forall2 R l1 l3.
Proof.
  intros H H12. revert l3.
  induction H12 as [ | a b r1 r2 Hab _ IH ]; intros l3 H23;
    inversion H23; subst; constructor; eauto.
Qed.

Lemma updateOne_step (o : ObjectId) (m : Marker.t) (l : list Student.t) :
  Forall2 (roster_step [o] m) l (updateOne_addToSet o m l).
Proof.
  induction l as [ | s r IH ]; simpl; [ constructor | ].
  destruct (Student._id s =? o) eqn:E.
  - constructor.
    + right. apply String.eqb_eq in E. split; [ now left | reflexivity ].
    + apply Forall2_same. intros x. now left.
  - constructor; [ now left | exact IH ].
Qed.

Lemma marked_again (m : Marker.t) (s s' s'' : Student.t) :
  marked m s s' -> marked m s' s'' -> s'' = s'.
Proof.
  unfold marked. intros -> ->. simpl. now rewrite addToSet_idempotent.
Qed.

Lemma applyBulkOps_step (subject : ObjectId) (ids : list ObjectId) :
  forall l : list Student.t,
  Forall2 (roster_step ids (Marker.mk subject true)) l
    (applyBulkOps (roster_ops ids subject) l).
Proof.
  unfold applyBulkOps.
  induction ids as [ | o r IH ]; intros l; simpl.
  - apply Forall2_same. intros s. now left.
  - apply (Forall2_compose (Q := roster_step r (Marker.mk subject true)))
      with (2 := updateOne_step o (Marker.mk subject true) l) (3 := IH _).
    intros a b c [-> | [Ha Hab]] [-> | [Hb Hbc]].
    + now left.
    + right. split; [ now right | exact Hbc ].
    + right. split; [ destruct Ha as [<- | []]; now left | exact Hab ].
    + right. split; [ destruct Ha as [<- | []]; now left | ].
      now rewrite (marked_again Hab Hbc).
Qed.

Lemma roster_step_markers_kept (ids : list ObjectId) (m : Marker.t)
    (s s' : Student.t) :
  roster_step ids m s s' -> markers_kept s s'.
Proof.
  intros [-> | [_ ->]] l El.
  - exists l. auto.
  - simpl. rewrite El. simpl.
    destruct (existsb (Marker.eqb m) l).
    + exists l. auto.
    + exists (l ++ [m]). split; trivial. intros x Hx. apply in_or_app. auto.
Qed.

(** X2: the only thing [createBatch] changes in a student is that a student
    of the roster gains the marker of the batch's subject; a student off
    the roster is stored exactly as before.  Whatever the outcome, no
    student loses a marker. *)
Theorem createBatch_only_marks_roster
    (db : Db.t) (body : CreateBatchBody) (fresh : ObjectId) :
  Forall2 markers_kept (Db.students db)
    (Db.students (snd (createBatch db body fresh)))
  /\ (forall (roster : list JsValue) (ids : list ObjectId)
             (subject : ObjectId),
        students body = JArr roster ->
        castRefs roster = Some ids ->
        ObjectId_new (subject_id body) = Some subject ->
        Forall2 (roster_step ids (Marker.mk subject true)) (Db.students db)
          (Db.students (snd (createBatch db body fresh)))).
Proof.
  destruct (createBatch_db db body fresh)
    as [-> | (roster & b & Hroster & Eb & ->)].
  - split.
    + apply Forall2_same. intros s l El. exists l. auto.
    + intros roster ids subject _ _ _. apply Forall2_same. intros s. now left.
  - simpl. destruct (Batch_new_Some _ _ _ Eb) as (Es & Er & _). split.
    + eapply Forall2_impl;
        [ | apply (applyBulkOps_step (Batch.subject_id b) (Batch.students b)) ].
      intros s s'. apply roster_step_markers_kept.
    + intros roster' ids subject Hroster' Er' Es'.
      rewrite Hroster in Hroster'. injection Hroster' as <-.
      rewrite Er in Er'. injection Er' as <-.
      rewrite Es in Es'. injection Es' as <-.
      apply applyBulkOps_step.
Qed.
End CreateBatchFrame.

Lemma createBatch_frame_witness :
  Db.wf (snd (@createBatch hexOdm Sample.db
                (Sample.request [JStr Sample.alice_id; JStr Sample.bob_id])
                Sample.batch1)).
Proof.
  apply (@createBatch_frame hexOdm Sample.db
           (Sample.request [JStr Sample.alice_id; JStr Sample.bob_id])
           Sample.batch1).
  exact Sample_db_wf.
Defined.

Lemma createBatch_only_marks_roster_witness :
  Forall2 (roster_step [Sample.alice_id; Sample.bob_id]
             (Marker.mk Sample.maths true))
    (Db.students Sample.db)
    (Db.students
       (snd (@createBatch hexOdm Sample.db
               (Sample.request [JStr Sample.alice_id; JStr Sample.bob_id])
               Sample.batch1))).
Proof.
  apply (proj2 (@createBatch_only_marks_roster hexOdm Sample.db
                  (Sample.request [JStr Sample.alice_id; JStr Sample.bob_id])
                  Sample.batch1)
           [JStr Sample.alice_id; JStr Sample.bob_id]);
    reflexivity.
Defined.

(** ** createBatch and the eligibility query *)

Section CreateBatchEligibility.
Context {odm : Odm}.

(** The first two alternatives of the query's [$or] are covered by the
    third. *)
Lemma eligibility_filter_elemMatch (packageIds : list ObjectId)
    (subject : ObjectId) (s : Student.t) :
  eligibility_filter packageIds subject s
  = subscribed_in packageIds s && is_paid_true s
    && negb (elemMatch_subject_true subject s).
Proof.
  unfold eligibility_filter, batch_creation_absent, batch_creation_size0,
    elemMatch_subject_true.
  destruct (Student.batch_creation s) as [[ | m l] | ]; simpl; trivial.
Qed.

Lemma elemMatch_marked (m : Marker.t) (subject : ObjectId)
    (s s' : Student.t) :
  marked m s s' ->
  elemMatch_subject_true subject s'
  = elemMatch_subject_true subject s
    || (Marker.subject_id m =? subject) && Bool.eqb (Marker.status m) true.
Proof.
  unfold marked, elemMatch_subject_true. intros ->. simpl.
  set (hit := fun x : Marker.t =>
                (Marker.subject_id x =? subject)
                && Bool.eqb (Marker.status x) true).
  change ((Marker.subject_id m =? subject) && Bool.eqb (Marker.status m) true)
    with (hit m).
  destruct (Student.batch_creation s) as [l | ]; simpl.
  - destruct (existsb (Marker.eqb m) l) eqn:E.
    + apply existsb_Marker_eqb in E.
      destruct (hit m) eqn:Em; [ | now rewrite orb_false_r ].
      rewrite orb_true_r. apply existsb_exists. exists m. auto.
    + rewrite existsb_app. simpl. now rewrite orb_false_r.
  - now rewrite orb_false_r.
Qed.

(** X3: once a batch is created, no student of its roster is selected by
    the eligibility query for the batch's subject, whatever the package
    set. *)
Theorem createBatch_roster_no_longer_eligible
    (db : Db.t) (body : CreateBatchBody) (fresh : ObjectId)
    (roster : list JsValue) (b : Batch.t) (packageIds : list ObjectId) :
  Db.wf db ->
  valid_request db body fresh roster b ->
  forall s,
    In s (filter (eligibility_filter packageIds (Batch.subject_id b))
            (Db.students (snd (createBatch db body fresh)))) ->
    ~ In (Student._id s) (Batch.students b).
Proof.
  intros Hwf Hvalid s Hs Hroster.
  assert (Hwf' : Db.wf (snd (createBatch db body fresh)))
    by now apply createBatch_frame.
  rewrite (createBatch_valid Hwf Hvalid) in Hs, Hwf'. simpl in Hs.
  apply filter_In in Hs. destruct Hs as [Hs Hsel].
  pose proof (findById_wf _ _ Hwf' Hs) as F. simpl in F.
  rewrite findById_applyBulkOps in F.
  destruct (Student_findById (Student._id s) (Db.students db)) as [s0 | ];
    try discriminate.
  apply existsb_String_eqb in Hroster. rewrite Hroster in F.
  injection F as F.
  rewrite eligibility_filter_elemMatch in Hsel.
  rewrite (elemMatch_marked (m := Marker.mk (Batch.subject_id b) true)
             (Batch.subject_id b) (s := s0)) in Hsel
    by (unfold marked; now rewrite F).
  simpl in Hsel. rewrite String.eqb_refl, orb_true_r, andb_false_r in Hsel.
  discriminate.
Qed.

(** X4: a [createBatch] for one subject changes the selection of the
    eligibility query for no other subject: student by student the filter
    decides as before, so the selected ids are the same, in the same
    order. *)
Theorem createBatch_other_subjects_unaffected
    (db : Db.t) (body : CreateBatchBody) (fresh : ObjectId)
    (packageIds : list ObjectId) (other : ObjectId) :
  (forall subject, ObjectId_new (subject_id body) = Some subject ->
                   subject <> other) ->
  map (eligibility_filter packageIds other)
    (Db.students (snd (createBatch db body fresh)))
  = map (eligibility_filter packageIds other) (Db.students db)
  /\ map Student._id
       (filter (eligibility_filter packageIds other)
          (Db.students (snd (createBatch db body fresh))))
     = map Student._id
         (filter (eligibility_filter packageIds other) (Db.students db)).
Proof.
  intros Hother.
  assert (H : Forall2 (fun s s' =>
                         Student._id s' = Student._id s
                         /\ eligibility_filter packageIds other s'
                            = eligibility_filter packageIds other s)
                (Db.students db)
                (Db.students (snd (createBatch db body fresh)))).
  { destruct (createBatch_db db body fresh)
      as [-> | (roster & b & _ & Eb & ->)].
    - apply Forall2_same. auto.
    - simpl. destruct (Batch_new_Some _ _ _ Eb) as (Es & _ & _).
      eapply Forall2_impl;
        [ | apply (applyBulkOps_step (Batch.subject_id b) (Batch.students b)) ].
      intros s s' [-> | [_ Hm]]; [ auto | ].
      split; [ now rewrite Hm | ].
      rewrite !eligibility_filter_elemMatch, (elemMatch_marked other Hm).
      simpl. pose proof (Hother _ Es) as Hne.
      apply String.eqb_neq in Hne. rewrite Hne, orb_false_r.
      unfold marked in Hm. now rewrite Hm. }
  induction H as [ | s s' l l' [Hid Hf] _ [IHmap IHfilter] ]; simpl; auto.
  rewrite Hf, IHmap. split; trivial.
  destruct (eligibility_filter packageIds other s); simpl; congruence.
Qed.
End CreateBatchEligibility.

Lemma createBatch_roster_no_longer_eligible_witness :
  ~ In (Student.with_batch_creation
          (Some [Marker.mk Sample.maths false; Marker.mk Sample.maths true])
          Sample.bob)
      (filter (eligibility_filter [Sample.gold] Sample.maths)
         (Db.students
            (snd (@createBatch hexOdm Sample.db
                    (Sample.request [JStr Sample.alice_id; JStr Sample.bob_id])
                    Sample.batch1)))).
Proof.
  intros H.
  apply (@createBatch_roster_no_longer_eligible hexOdm Sample.db
           (Sample.request [JStr Sample.alice_id; JStr Sample.bob_id])
           Sample.batch1 [JStr Sample.alice_id; JStr Sample.bob_id] _
           [Sample.gold] Sample_db_wf Sample_request_valid _ H).
  simpl. auto.
Defined.

Lemma createBatch_other_subjects_unaffected_witness :
  map Student._id
    (filter (eligibility_filter [Sample.gold] Sample.maths)
       (Db.students
          (snd (@createBatch hexOdm Sample.db Sample2.physics_request
                  Sample.batch2))))
  = [Sample.alice_id; Sample.bob_id].
Proof.
  change [Sample.alice_id; Sample.bob_id]
    with (map Student._id
            (filter (eligibility_filter [Sample.gold] Sample.maths)
               (Db.students Sample.db))).
  apply (@createBatch_other_subjects_unaffected hexOdm Sample.db
           Sample2.physics_request Sample.batch2 [Sample.gold] Sample.maths).
  intros subject E. vm_compute in E. injection E as <-. discriminate.
Defined.

(** ** createBatch and the batch lookups *)

Section CreateBatchLookups.
Context {odm : Odm}.

(** X5: once a batch is created it is found by all three lookups: under
    its [_id], among the batches of each student of its roster, and, for a
    caller with the teacher role, among the batches of its teacher. *)
Theorem createBatch_then_found
    (db : Db.t) (body : CreateBatchBody) (fresh : ObjectId)
    (roster : list JsValue) (b : Batch.t) :
  Db.wf db ->
  ~ In fresh (map Batch._id (Db.batches db)) ->
  valid_request db body fresh roster b ->
  (forall id : string,
      id <> "" -> ObjectId_new (JStr id) = Some fresh ->
      exists batchObj,
        getBatchById (snd (createBatch db body fresh)) (Some id)
        = (200%nat, JObj [ ("message", JStr "Batch fetched successfully");
                           ("batch", batchObj) ])
        /\ batchObj
           = js_set "studentcount"
               (studentcount
                  (Batch_populate (snd (createBatch db body fresh))
                     populate_batch b))
               (Batch_populate (snd (createBatch db body fresh))
                  populate_batch b))
  /\ (forall (studentId : string) (o : ObjectId),
        ObjectId_new (JStr studentId) = Some o ->
        In o (Batch.students b) ->
        exists found,
          getBatchesByStudentId (snd (createBatch db body fresh)) studentId
          = json 200
              (BatchArray
                 (map (Batch_populate (snd (createBatch db body fresh))
                         populate_batches_of_student) found))
          /\ In b found)
  /\ (forall (u : User) (teacherId : string),
        user_role u = JStr "teacher" ->
        ObjectId_new (JStr teacherId) = Some (Batch.teacher_id b) ->
        exists found,
          getBatchesByTeacherId (snd (createBatch db body fresh)) (Some u)
            teacherId
          = json 200
              (BatchArray
                 (map (Batch_populate (snd (createBatch db body fresh))
                         populate_batches) found))
          /\ In b found).
Proof.
  intros Hwf Hfresh Hvalid.
  rewrite (createBatch_valid Hwf Hvalid). simpl.
  destruct Hvalid as (_ & _ & Eb & _).
  destruct (Batch_new_Some _ _ _ Eb) as (_ & _ & Hid).
  split; [ | split ].
  - intros id Hid' Eid. eexists. split; [ | reflexivity ].
    unfold getBatchById, falsy. simpl.
    destruct (id =? "") eqn:E; [ apply String.eqb_eq in E; contradiction | ].
    simpl. rewrite Eid. simpl.
    now rewrite (Batch_findById_last b _ Hfresh Hid).
  - intros studentId o Eo Ho.
    unfold getBatchesByStudentId, Batch_find_students. rewrite Eo. simpl.
    eexists. split; [ reflexivity | ].
    apply filter_In. split.
    + apply in_or_app. right. now left.
    + now apply existsb_String_eqb.
  - intros u teacherId Hrole Et.
    unfold getBatchesByTeacherId, Batch_find_teacher_id. simpl.
    rewrite Hrole, Et. simpl.
    assert (Hb : In b (filter (fun x => Batch.teacher_id x =? Batch.teacher_id b)
                         (Db.batches db ++ [b]))).
    { apply filter_In. split.
      - apply in_or_app. right. now left.
      - apply String.eqb_refl. }
    destruct (filter _ (Db.batches db ++ [b])) as [ | x r ];
      [ contradiction | ].
    exists (x :: r). auto.
Qed.

Lemma assoc_get_set_same (k : string) (x : JsValue)
    (fields : list (string * JsValue)) :
  assoc_get k (assoc_set k x fields) = x.
Proof.
  induction fields as [ | [k' v] r IH ]; simpl.
  - now rewrite String.eqb_refl.
  - destruct (k' =? k) eqn:E; simpl.
    + now rewrite String.eqb_refl.
    + now rewrite E.
Qed.

Lemma assoc_get_set_other (k k0 : string) (x : JsValue)
    (fields : list (string * JsValue)) :
  k0 <> k -> assoc_get k0 (assoc_set k x fields) = assoc_get k0 fields.
Proof.
  intros Hne. apply not_eq_sym in Hne.
  induction fields as [ | [k' v] r IH ]; simpl.
  - apply String.eqb_neq in Hne. now rewrite Hne.
  - destruct (k' =? k) eqn:E; simpl.
    + apply String.eqb_eq in E. subst k'.
      apply String.eqb_neq in Hne. now rewrite Hne.
    + now rewrite IH.
Qed.

(** X6: [getBatchById] answers 400 without an id, 500 to an id that is no
    identifier, 404 to an identifier no batch has.  Otherwise it answers
    200 with the populated batch, every property of which is as populated,
    plus [studentcount]: the length of the populated [students] array, and
    0 when the batch has no [students]. *)
Theorem getBatchById_outcomes (db : Db.t) :
  getBatchById db None
  = (400%nat, JObj [("message", JStr "Batch ID is required")])
  /\ getBatchById db (Some "")
     = (400%nat, JObj [("message", JStr "Batch ID is required")])
  /\ (forall id : string,
        id <> "" -> ObjectId_new (JStr id) = None ->
        getBatchById db (Some id)
        = (500%nat, JObj [("error", JStr "Server error")]))
  /\ (forall (id : string) (o : ObjectId),
        id <> "" -> ObjectId_new (JStr id) = Some o ->
        ~ In o (map Batch._id (Db.batches db)) ->
        getBatchById db (Some id)
        = (404%nat, JObj [("message", JStr "Batch not found")]))
  /\ (forall (id : string) (o : ObjectId) (b : Batch.t)
             (fields : list (string * JsValue)),
        id <> "" -> ObjectId_new (JStr id) = Some o ->
        Batch_findById o (Db.batches db) = Some b ->
        Batch_populate db populate_batch b = JObj fields ->
        exists batchObj,
          getBatchById db (Some id)
          = (200%nat, JObj [ ("message", JStr "Batch fetched successfully");
                             ("batch", batchObj) ])
          /\ (forall k, k <> "studentcount" ->
                        js_get k batchObj = assoc_get k fields)
          /\ (forall l, assoc_get "students" fields = JArr l ->
                js_get "studentcount" batchObj
                = JNum (Z.of_nat (List.length l)))
          /\ (assoc_get "students" fields = JUndefined ->
              js_get "studentcount" batchObj = JNum 0)).
Proof.
  assert (Hne : forall id, id <> "" -> falsy (JStr id) = false).
  { intros id H. unfold falsy. simpl.
    destruct (id =? "") eqn:E; trivial.
    apply String.eqb_eq in E. contradiction. }
  split; [ reflexivity | ]. split; [ reflexivity | ].
  split; [ | split ].
  - intros id Hid E. unfold getBatchById. now rewrite (Hne id Hid), E.
  - intros id o Hid E Hnone. unfold getBatchById.
    rewrite (Hne id Hid), E. simpl.
    destruct (Batch_findById o (Db.batches db)) as [b | ] eqn:F; trivial.
    destruct (find_some _ _ F) as [Hb Eb]. apply String.eqb_eq in Eb.
    elim Hnone. rewrite <- Eb. now apply in_map.
  - intros id o b fields Hid E F Hp. eexists. split.
    + unfold getBatchById. rewrite (Hne id Hid), E. simpl. rewrite F.
      reflexivity.
    + rewrite Hp. unfold studentcount. simpl. split; [ | split ].
      * intros k Hk. now apply assoc_get_set_other.
      * intros l El. rewrite assoc_get_set_same, El. reflexivity.
      * intros El. rewrite assoc_get_set_same, El. reflexivity.
Qed.

(** X7: for a request that passes the field checks and whose roster is an
    array of identifiers, the answer is the invalid-student-id error
    exactly when the roster repeats an id or names an id no student has. *)
Theorem createBatch_invalid_ids_iff
    (db : Db.t) (body : CreateBatchBody) (fresh : ObjectId)
    (roster : list JsValue) (ids : list ObjectId) :
  Db.wf db ->
  all_required body = true ->
  students body = JArr roster ->
  castRefs roster = Some ids ->
  (createBatch db body fresh
   = (json 500 (Error "One or more student IDs are invalid"), db)
   <-> ~ (NoDup ids /\ incl ids (map Student._id (Db.students db)))).
Proof.
  intros Hwf Hreq Hroster Eids.
  rewrite createBatch_outcome_eq. unfold createBatch_outcome.
  rewrite Hreq, Hroster, Eids. simpl.
  rewrite <- (castRefs_length _ Eids).
  destruct (_ =? _)%nat eqn:Ecount.
  - apply Nat.eqb_eq in Ecount.
    pose proof (count_eq_length ids (Db.students db) Hwf Ecount) as Hok.
    split; [ | tauto ].
    destruct (Batch_new fresh body roster) as [b | ];
      [ destruct (Batch_validate b) | ]; discriminate.
  - split; trivial. intros _ [Hnodup Hincl].
    apply Nat.eqb_neq in Ecount. apply Ecount.
    now apply length_eq_count.
Qed.
End CreateBatchLookups.

Lemma createBatch_then_found_witness :
  (exists batchObj,
     @getBatchById hexOdm Sample.db_with_batch (Some Sample.batch1)
     = (200%nat, JObj [ ("message", JStr "Batch fetched successfully");
                        ("batch", batchObj) ]))
  /\ (exists found,
        @getBatchesByStudentId hexOdm Sample.db_with_batch Sample.bob_id
        = json 200
            (BatchArray
               (map (@Batch_populate hexOdm Sample.db_with_batch
                       populate_batches_of_student) found))
        /\ In Sample2.morning_batch found)
  /\ (exists found,
        @getBatchesByTeacherId hexOdm Sample.db_with_batch
          (Some (mkUser (JStr "teacher"))) Sample.teacher
        = json 200
            (BatchArray
               (map (@Batch_populate hexOdm Sample.db_with_batch
                       populate_batches) found))
        /\ In Sample2.morning_batch found).
Proof.
  destruct (@createBatch_then_found hexOdm Sample.db
              (Sample.request [JStr Sample.alice_id; JStr Sample.bob_id])
              Sample.batch1 [JStr Sample.alice_id; JStr Sample.bob_id]
              Sample2.morning_batch
              Sample_db_wf (fun H : In Sample.batch1 [] => H)
              Sample_request_valid)
    as (Hid & Hstudent & Hteacher).
  split; [ | split ].
  - destruct (Hid Sample.batch1) as [batchObj [E _]];
      [ discriminate | reflexivity | ].
    exists batchObj. exact E.
  - apply (Hstudent Sample.bob_id Sample.bob_id);
      [ reflexivity | simpl; auto ].
  - apply (Hteacher (mkUser (JStr "teacher")) Sample.teacher); reflexivity.
Defined.

Lemma getBatchById_outcomes_witness :
  @getBatchById renderOdm Sample.db_with_batch (Some "batch-1")
  = (500%nat, JObj [("error", JStr "Server error")])
  /\ @getBatchById renderOdm Sample.db_with_batch (Some Sample.batch2)
     = (404%nat, JObj [("message", JStr "Batch not found")])
  /\ exists batchObj,
       @getBatchById renderOdm Sample.db_with_batch (Some Sample.batch1)
       = (200%nat, JObj [ ("message", JStr "Batch fetched successfully");
                          ("batch", batchObj) ])
       /\ js_get "studentcount" batchObj = JNum 2
       /\ js_get "batch_name" batchObj = JStr "Morning maths".
Proof.
  destruct (@getBatchById_outcomes renderOdm Sample.db_with_batch)
    as (_ & _ & H500 & H404 & H200).
  split; [ | split ].
  - apply H500; [ discriminate | reflexivity ].
  - apply (H404 Sample.batch2 Sample.batch2); [ discriminate | reflexivity | ].
    simpl. intuition discriminate.
  - destruct (H200 Sample.batch1 Sample.batch1 _ _
                ltac:(discriminate) eq_refl eq_refl eq_refl)
      as (batchObj & E & Hother & Hcount & _).
    exists batchObj. split; [ exact E | split ].
    + exact (Hcount _ eq_refl).
    + apply (Hother "batch_name"). discriminate.
Defined.

Lemma createBatch_invalid_ids_iff_witness :
  @createBatch hexOdm Sample.db
    (Sample.request [JStr Sample.alice_id; JStr Sample.batch2]) Sample.batch1
  = (json 500 (Error "One or more student IDs are invalid"), Sample.db).
Proof.
  apply (@createBatch_invalid_ids_iff hexOdm Sample.db
           (Sample.request [JStr Sample.alice_id; JStr Sample.batch2])
           Sample.batch1 [JStr Sample.alice_id; JStr Sample.batch2]
           [Sample.alice_id; Sample.batch2] Sample_db_wf eq_refl eq_refl
           eq_refl).
  intros [_ Hincl]. specialize (Hincl Sample.batch2).
  simpl in Hincl. intuition discriminate.
Defined.

(** ** createStudent and the lookups of the directory *)

Section DirectoryRoundTrips.
Context {odm : Odm}.

Lemma with_students_same (db : Db.t) :
  Db.with_students (Db.students db) db = db.
Proof. now destruct db. Qed.

Lemma find_app_last (p : Student.t -> bool) (l : list Student.t)
    (x : Student.t) :
  find p (l ++ [x])
  = match find p l with
    | Some y => Some y
    | None => if p x then Some x else None
    end.
Proof.
  induction l as [ | y r IH ]; simpl; trivial.
  now destruct (p y).
Qed.

Lemma remove_first_app_last (p : Student.t -> bool) (l : list Student.t)
    (x : Student.t) :
  find p l = None -> p x = true -> remove_first p (l ++ [x]) = l.
Proof.
  induction l as [ | y r IH ]; simpl; intros F Hx.
  - now rewrite Hx.
  - destruct (p y); try discriminate. now rewrite IH.
Qed.

(** A 201 of [createStudent], read backwards. *)
Lemma createStudent_created (db : Db.t) (body : CreateStudentBody.t)
    (fresh : ObjectId) :
  status (fst (createStudent db body fresh)) = 201%nat ->
  exists queried sid uid,
    role_recognized (CreateStudentBody.role body) = true
    /\ ObjectId_isValid (CreateStudentBody.student_id body) = true
    /\ ObjectId_new (CreateStudentBody.student_id body) = Some queried
    /\ ObjectId_constructor (CreateStudentBody.student_id body) = Some sid
    /\ ObjectId_constructor (CreateStudentBody.user_id body) = Some uid
    /\ find (fun s => js_eqb (Student.auth_id s)
                        (CreateStudentBody.auth_id body)
                      || js_eqb (Student.student_id s) (JOid queried))
         (Db.students db) = None
    /\ createStudent db body fresh
       = (json 201
            (MessageStudent "Student created successfully"
               (Student_new fresh (CreateStudentBody.auth_id body) sid uid
                  (CreateStudentBody.role body))),
          Db.with_students
            (Db.students db
             ++ [Student_new fresh (CreateStudentBody.auth_id body) sid uid
                   (CreateStudentBody.role body)]) db).
Proof.
  unfold createStudent, Student_findOne_auth_or_student, Student_insert.
  destruct (role_recognized (CreateStudentBody.role body)); simpl;
    try discriminate.
  destruct (ObjectId_isValid (CreateStudentBody.student_id body)); simpl;
    try discriminate.
  destruct (ObjectId_new (CreateStudentBody.student_id body))
    as [queried | ]; simpl; try discriminate.
  destruct (find _ (Db.students db)) eqn:F; simpl; try discriminate.
  destruct (ObjectId_constructor (CreateStudentBody.student_id body))
    as [sid | ]; simpl; try discriminate.
  destruct (ObjectId_constructor (CreateStudentBody.user_id body))
    as [uid | ]; simpl; try discriminate.
  destruct (Student_validate _); simpl; try discriminate.
  intros _. exists queried, sid, uid. auto 10.
Qed.

(** X8: [createStudent] changes the database only when it answers 201, and
    then only by adding the new student, under the generated [_id], after
    all the others; with a generated [_id] that no student has, the
    uniqueness of [_id] survives it. *)
Theorem createStudent_frame
    (db : Db.t) (body : CreateStudentBody.t) (fresh : ObjectId) :
  (status (fst (createStudent db body fresh)) <> 201%nat ->
   snd (createStudent db body fresh) = db)
  /\ (status (fst (createStudent db body fresh)) = 201%nat ->
      exists new,
        Student._id new = fresh
        /\ snd (createStudent db body fresh)
           = Db.with_students (Db.students db ++ [new]) db)
  /\ (Db.wf db -> ~ In fresh (map Student._id (Db.students db)) ->
      Db.wf (snd (createStudent db body fresh))).
Proof.
  assert (Hfail : status (fst (createStudent db body fresh)) <> 201%nat ->
                  snd (createStudent db body fresh) = db).
  { unfold createStudent, Student_findOne_auth_or_student, Student_insert.
    destruct (role_recognized _); simpl; trivial.
    destruct (ObjectId_isValid _); simpl; trivial.
    destruct (ObjectId_new (CreateStudentBody.student_id body)); simpl; trivial.
    destruct (find _ (Db.students db)); simpl; trivial.
    destruct (ObjectId_constructor (CreateStudentBody.student_id body));
      simpl; trivial.
    destruct (ObjectId_constructor (CreateStudentBody.user_id body));
      simpl; trivial.
    destruct (Student_validate _); simpl; trivial.
    intros H. now elim H. }
  split; [ exact Hfail | ]. split.
  - intros H. destruct (createStudent_created _ _ _ H)
      as (queried & sid & uid & _ & _ & _ & _ & _ & _ & ->).
    eexists. split; [ | reflexivity ]. reflexivity.
  - intros Hwf Hfresh.
    destruct (Nat.eq_dec (status (fst (createStudent db body fresh))) 201)
      as [H | H].
    + destruct (createStudent_created _ _ _ H)
        as (queried & sid & uid & _ & _ & _ & _ & _ & _ & ->).
      unfold Db.wf. simpl. rewrite map_app. simpl.
      apply NoDup_app; trivial; [ constructor; [ auto | constructor ] | ].
      intros x Hx [<- | []]. contradiction.
    + now rewrite (Hfail H).
Qed.

End DirectoryRoundTrips.

Section DirectoryLookups.
Context {odm : Odm}.

(** X10: [getStudentByAuthId] answers 400 without the header or with an
    empty one, and 404 when no student has the [auth_id].  After a student
    is created with a non-empty string as [auth_id], the lookup under that
    string answers 200 with that student, references resolved. *)
Theorem getStudentByAuthId_round_trip (db : Db.t) :
  getStudentByAuthId db None
  = json 400 (Message "auth_id header is required")
  /\ getStudentByAuthId db (Some "")
     = json 400 (Message "auth_id header is required")
  /\ (forall authId : string,
        authId <> "" ->
        (forall s, In s (Db.students db) -> Student.auth_id s <> JStr authId) ->
        getStudentByAuthId db (Some authId)
        = json 404 (Message "Student not found"))
  /\ (forall (body : CreateStudentBody.t) (fresh : ObjectId)
             (authId : string),
        authId <> "" ->
        CreateStudentBody.auth_id body = JStr authId ->
        status (fst (createStudent db body fresh)) = 201%nat ->
        exists new,
          fst (createStudent db body fresh)
          = json 201 (MessageStudent "Student created successfully" new)
          /\ Student.auth_id new = JStr authId
          /\ Student.role new = CreateStudentBody.role body
          /\ getStudentByAuthId (snd (createStudent db body fresh))
               (Some authId)
             = json 200
                 (MessageStudent "Student retrieved successfully by auth_id"
                    (Student_populate (snd (createStudent db body fresh))
                       populate_student new))).
Proof.
  assert (Hne : forall a, a <> "" -> falsy (JStr a) = false).
  { intros a H. unfold falsy. simpl.
    destruct (a =? "") eqn:E; trivial.
    apply String.eqb_eq in E. contradiction. }
  split; [ reflexivity | ]. split; [ reflexivity | ]. split.
  - intros authId Ha Hnone. unfold getStudentByAuthId, Student_findOne_auth_id.
    rewrite (Hne _ Ha).
    destruct (find _ (Db.students db)) as [s | ] eqn:F; trivial.
    destruct (find_some _ _ F) as [Hs E]. apply js_eqb_eq in E.
    now elim (Hnone s Hs).
  - intros body fresh authId Ha Eauth H.
    destruct (createStudent_created _ _ _ H)
      as (queried & sid & uid & _ & _ & _ & _ & _ & F & ->).
    eexists. split; [ reflexivity | ]. simpl.
    split; [ exact Eauth | ]. split; [ reflexivity | ].
    unfold getStudentByAuthId, Student_findOne_auth_id. rewrite (Hne _ Ha).
    simpl. rewrite find_app_last.
    rewrite Eauth in F.
    assert (F' : find (fun s => js_eqb (Student.auth_id s) (JStr authId))
                   (Db.students db) = None).
    { apply find_none_iff. intros s Hs.
      apply (find_none _ _ F) in Hs. now apply orb_false_iff in Hs. }
    rewrite F'. simpl. now rewrite Eauth, js_eqb_refl.
Qed.

(** X11: after a student is created under a generated [_id] that no
    student had, [getStudentById] under that [_id] answers 200 with that
    student, references resolved. *)
Theorem createStudent_then_getStudentById
    (db : Db.t) (body : CreateStudentBody.t) (fresh : ObjectId)
    (id : string) :
  status (fst (createStudent db body fresh)) = 201%nat ->
  ~ In fresh (map Student._id (Db.students db)) ->
  ObjectId_isValid (JStr id) = true ->
  ObjectId_new (JStr id) = Some fresh ->
  exists new,
    fst (createStudent db body fresh)
    = json 201 (MessageStudent "Student created successfully" new)
    /\ getStudentById (snd (createStudent db body fresh)) id
       = json 200
           (StudentDoc
              (Student_populate (snd (createStudent db body fresh))
                 populate_student new)).
Proof.
  intros H Hfresh Hvalid Eid.
  destruct (createStudent_created _ _ _ H)
    as (queried & sid & uid & _ & _ & _ & _ & _ & _ & ->).
  eexists. split; [ reflexivity | ]. simpl.
  unfold getStudentById, Student_findById. rewrite Hvalid, Eid. simpl.
  rewrite find_app_last.
  replace (find (fun s => Student._id s =? fresh) (Db.students db))
    with (@None Student.t).
  - simpl. now rewrite String.eqb_refl.
  - symmetry. apply find_none_iff. intros s Hs.
    apply String.eqb_neq. intros E. apply Hfresh. rewrite <- E.
    now apply in_map.
Qed.

(** X12: deleting a student that was just created, under the value stored
    as its [student_id], gives back the database as it was before the
    creation, when that value is also the one the conflict query looked
    for. *)
Theorem createStudent_then_deleteStudent
    (db : Db.t) (body : CreateStudentBody.t) (fresh : ObjectId)
    (id : string) (sid : ObjectId) :
  status (fst (createStudent db body fresh)) = 201%nat ->
  ObjectId_new (CreateStudentBody.student_id body) = Some sid ->
  ObjectId_constructor (CreateStudentBody.student_id body) = Some sid ->
  ObjectId_isValid (JStr id) = true ->
  ObjectId_new (JStr id) = Some sid ->
  deleteStudent (snd (createStudent db body fresh)) id
  = (json 200 (Message "Student deleted successfully"), db).
Proof.
  intros H Equeried Esid Hvalid Eid.
  destruct (createStudent_created _ _ _ H)
    as (queried & sid' & uid & _ & _ & Equeried' & Esid' & _ & F & ->).
  rewrite Equeried in Equeried'. injection Equeried' as <-.
  rewrite Esid in Esid'. injection Esid' as <-. simpl.
  assert (F' : find (student_id_is sid) (Db.students db) = None).
  { apply find_none_iff. intros s Hs.
    apply (find_none _ _ F) in Hs. now apply orb_false_iff in Hs. }
  unfold deleteStudent, Student_findOneAndDelete_student_id.
  rewrite Hvalid, Eid. simpl.
  rewrite find_app_last, F'.
  assert (Hnew : student_id_is sid
                   (Student_new fresh (CreateStudentBody.auth_id body) sid uid
                      (CreateStudentBody.role body)) = true)
    by apply js_eqb_refl.
  rewrite Hnew. simpl.
  rewrite (remove_first_app_last _ _ _ F' Hnew).
  unfold Db.with_students. simpl. now destruct db.
Qed.

Lemma remove_first_ids (p : Student.t -> bool) (l : list Student.t) :
  NoDup (map Student._id l) -> NoDup (map Student._id (remove_first p l)).
Proof.
  induction l as [ | s r IH ]; simpl; intros H; trivial.
  inversion H as [ | ? ? Hnotin Hr ]; subst.
  destruct (p s); trivial. simpl. constructor; auto.
  intros Hin. apply Hnotin.
  clear - Hin. induction r as [ | x r IH ]; simpl in *; [ contradiction | ].
  destruct (p x); simpl in *; intuition.
Qed.

Lemma remove_first_length (p : Student.t -> bool) (l : list Student.t)
    (s : Student.t) :
  find p l = Some s ->
  S (List.length (remove_first p l)) = List.length l.
Proof.
  revert s. induction l as [ | x r IH ]; simpl; intros s F; try discriminate.
  destruct (p x); trivial. simpl. f_equal. eapply IH. eassumption.
Qed.

(** A 200 of [deleteStudent], read backwards. *)
Lemma deleteStudent_deleted (db : Db.t) (id : string) :
  status (fst (deleteStudent db id)) = 200%nat ->
  exists o gone,
    ObjectId_isValid (JStr id) = true
    /\ ObjectId_new (JStr id) = Some o
    /\ find (student_id_is o) (Db.students db) = Some gone
    /\ deleteStudent db id
       = (json 200 (Message "Student deleted successfully"),
          Db.with_students (remove_first (student_id_is o) (Db.students db))
            db).
Proof.
  unfold deleteStudent, Student_findOneAndDelete_student_id.
  destruct (ObjectId_isValid (JStr id)); simpl; try discriminate.
  destruct (ObjectId_new (JStr id)) as [o | ]; simpl; try discriminate.
  destruct (find (student_id_is o) (Db.students db)) as [g | ] eqn:F; simpl;
    try discriminate.
  intros _. exists o, g. auto.
Qed.

(** X13: [deleteStudent] changes the database only when it answers 200, and
    then removes one student and nothing else: the uniqueness of [_id]
    survives it, and the batches are not touched, so a batch that has the
    deleted student on its roster keeps naming it. *)
Theorem deleteStudent_frame (db : Db.t) (id : string) :
  (status (fst (deleteStudent db id)) <> 200%nat ->
   snd (deleteStudent db id) = db)
  /\ (status (fst (deleteStudent db id)) = 200%nat ->
      S (List.length (Db.students (snd (deleteStudent db id))))
      = List.length (Db.students db))
  /\ (Db.wf db -> Db.wf (snd (deleteStudent db id)))
  /\ Db.batches (snd (deleteStudent db id)) = Db.batches db
  /\ (forall studentId : string,
        Batch_find_students studentId (Db.batches (snd (deleteStudent db id)))
        = Batch_find_students studentId (Db.batches db)).
Proof.
  assert (Hfail : status (fst (deleteStudent db id)) <> 200%nat ->
                  snd (deleteStudent db id) = db).
  { unfold deleteStudent, Student_findOneAndDelete_student_id.
    destruct (ObjectId_isValid (JStr id)); simpl; trivial.
    destruct (ObjectId_new (JStr id)) as [o | ]; simpl; trivial.
    destruct (find (student_id_is o) (Db.students db)); simpl; trivial.
    intros H. now elim H. }
  assert (Hbatches : Db.batches (snd (deleteStudent db id)) = Db.batches db).
  { destruct (Nat.eq_dec (status (fst (deleteStudent db id))) 200) as [H | H].
    - destruct (deleteStudent_deleted _ _ H) as (o & g & _ & _ & _ & ->).
      reflexivity.
    - now rewrite (Hfail H). }
  split; [ exact Hfail | ]. split; [ | split; [ | split ] ].
  - intros H.
    destruct (deleteStudent_deleted _ _ H) as (o & g & _ & _ & F & ->).
    simpl. now apply remove_first_length with (s := g).
  - intros Hwf.
    destruct (Nat.eq_dec (status (fst (deleteStudent db id))) 200) as [H | H].
    + destruct (deleteStudent_deleted _ _ H) as (o & g & _ & _ & _ & ->).
      unfold Db.wf. simpl. now apply remove_first_ids.
    + now rewrite (Hfail H).
  - exact Hbatches.
  - intros studentId. now rewrite Hbatches.
Qed.
(** X14: when no two students share a [student_id], a second
    [deleteStudent] under the id of a successful one is answered 404 and
    changes nothing. *)
Theorem deleteStudent_twice (db : Db.t) (id : string) :
  NoDup (map Student.student_id (Db.students db)) ->
  status (fst (deleteStudent db id)) = 200%nat ->
  deleteStudent (snd (deleteStudent db id)) id
  = (json 404 (Error "Student not found"), snd (deleteStudent db id)).
Proof.
  intros Hnodup H.
  destruct (deleteStudent_deleted _ _ H) as (o & g & Hvalid & Eo & F & ->).
  simpl.
  destruct (remove_first_split _ _ F) as (before & after & El & _ & Hg & Hr).
  unfold deleteStudent at 1, Student_findOneAndDelete_student_id.
  rewrite Hvalid, Eo. simpl. rewrite Hr.
  replace (find (student_id_is o) (before ++ after)) with (@None Student.t);
    trivial.
  symmetry. apply find_none_iff. intros s Hs.
  unfold student_id_is.
  destruct (js_eqb (Student.student_id s) (JOid o)) eqn:E; trivial.
  exfalso. apply js_eqb_eq in E. apply js_eqb_eq in Hg.
  rewrite El, map_app in Hnodup. simpl in Hnodup.
  apply NoDup_remove_2 in Hnodup. apply Hnodup.
  rewrite <- map_app, Hg, <- E. now apply in_map.
Qed.
End DirectoryLookups.

(** ** updateStudent: what it leaves alone, and what it cannot set *)

Section UpdateStudentMore.
Context {odm : Odm}.

Lemma replace_by_id_ids (s : Student.t) (l : list Student.t) :
  map Student._id (replace_by_id s l) = map Student._id l.
Proof.
  induction l as [ | x r IH ]; simpl; trivial.
  destruct (Student._id x =? Student._id s) eqn:E; simpl.
  - apply String.eqb_eq in E. now rewrite E.
  - now rewrite IH.
Qed.

Lemma replace_by_id_same (s : Student.t) (l : list Student.t) :
  Student_findById (Student._id s) l = Some s -> replace_by_id s l = l.
Proof.
  unfold Student_findById.
  induction l as [ | x r IH ]; simpl; trivial.
  destruct (Student._id x =? Student._id s); intros F.
  - now injection F as ->.
  - now rewrite IH.
Qed.

(** X15: [updateStudent] changes the database only when it answers 200;
    it never adds, removes or reorders a student, so the uniqueness of
    [_id] survives it, and it never touches the batches or the classes. *)
Theorem updateStudent_frame
    (db : Db.t) (studentId : string) (body : UpdateStudentBody.t) :
  (status (fst (updateStudent db studentId body)) <> 200%nat ->
   snd (updateStudent db studentId body) = db)
  /\ map Student._id (Db.students (snd (updateStudent db studentId body)))
     = map Student._id (Db.students db)
  /\ (Db.wf db -> Db.wf (snd (updateStudent db studentId body)))
  /\ Db.batches (snd (updateStudent db studentId body)) = Db.batches db
  /\ Db.classes (snd (updateStudent db studentId body)) = Db.classes db.
Proof.
  assert (Hids : map Student._id
                   (Db.students (snd (updateStudent db studentId body)))
                 = map Student._id (Db.students db)).
  { destruct (updateStudent_outcome db studentId body)
      as [[-> _] | (found & student' & updated & _ & _ & _ & _ & ->)];
      trivial.
    simpl. apply replace_by_id_ids. }
  split; [ | split; [ exact Hids | split ] ].
  - intros H.
    destruct (updateStudent_outcome db studentId body)
      as [[E _] | (found & student' & updated & _ & _ & _ & _ & E)]; trivial.
    rewrite E in H. now elim H.
  - unfold Db.wf. now rewrite Hids.
  - destruct (updateStudent_outcome db studentId body)
      as [[-> _] | (found & student' & updated & _ & _ & _ & _ & ->)]; auto.
Qed.



Lemma assign_nothing (body : UpdateStudentBody.t) (s : Student.t) :
  sets_nothing body -> assign_updateData body s = inr s.
Proof.
  intros (_ & Ha & Hs & Hu & Hp & Hi & Hsub & Hpay & Hlast & Hphone).
  unfold assign_updateData, assign_or, assign_defined.
  rewrite Ha, Hs, Hu, Hp, Hi, Hsub, Hpay, Hlast, Hphone. simpl.
  now destruct s.
Qed.

(** X17: an update in which every value is falsy finds its student and
    assigns nothing: it answers 200 with the student as loaded, which is
    stored over the one found.  The database is the one before when the
    stored student lacked none of the paths that have a default; else the
    defaults are written. *)
Theorem updateStudent_nothing_to_set
    (db : Db.t) (studentId : string) (body : UpdateStudentBody.t)
    (found : Student.t) :
  Db.wf db ->
  sets_nothing body ->
  found_student db studentId found ->
  Student_validate (Student_init found) = true ->
  updateStudent db studentId body
  = (json 200
       (MessageStudent "Student updated successfully" (Student_init found)),
     Db.with_students (replace_by_id (Student_init found) (Db.students db))
       db)
  /\ Student_findById (Student._id found)
       (Db.students (snd (updateStudent db studentId body)))
     = Some (Student_init found)
  /\ (Student_init found = found ->
      snd (updateStudent db studentId body) = db).
Proof.
  intros Hwf Hnothing Hl Hv.
  assert (Hc : reclassed db (UpdateStudentBody.class_id body)
                 (Student_init found) (Student_init found))
    by (left; split; [ apply Hnothing | reflexivity ]).
  rewrite (updateStudent_run body Hl Hc
             (assign_nothing (Student_init found) Hnothing) Hv).
  simpl. split; [ reflexivity | ]. split.
  - rewrite findById_replace, (found_student_stored Hwf Hl).
    assert (Eid : Student._id (Student_init found) = Student._id found)
      by reflexivity.
    now rewrite Eid, String.eqb_refl.
  - intros E. rewrite E.
    rewrite replace_by_id_same by now apply found_student_stored with studentId.
    apply with_students_same.
Qed.
End UpdateStudentMore.

(** ** Subscription statistics *)

Section SubscriptionStats.
Context {odm : Odm}.

Lemma is_paid_counts (l : list Student.t) :
  (Student_countDocuments_is_paid true l
   + Student_countDocuments_is_paid false l
   + List.length
       (filter (fun s => negb (js_eqb (Student.is_paid s) (JBool true))
                         && negb (js_eqb (Student.is_paid s) (JBool false)))
          l)
   = List.length l)%nat.
Proof.
  unfold Student_countDocuments_is_paid.
  induction l as [ | s r IH ]; simpl; trivial.
  destruct (Student.is_paid s) as [ | | [ | ] | | | | | ]; simpl; lia.
Qed.

(** X18: the two counts of the subscription statistics never exceed the
    number of students together, and they add up to it exactly when every
    student has a boolean [is_paid]: a student whose [is_paid] is missing
    or [null] is counted on neither side. *)
Theorem subscription_stats_partial (db : Db.t) :
  getStudentSubscriptionStats db
  = (200%nat,
     JObj [ ("message",
             JStr "Student subscription statistics fetched successfully");
            ("data",
             JObj [ ("subscribed",
                     JNum (Z.of_nat
                             (Student_countDocuments_is_paid true
                                (Db.students db))));
                    ("notSubscribed",
                     JNum (Z.of_nat
                             (Student_countDocuments_is_paid false
                                (Db.students db)))) ]) ])
  /\ (Student_countDocuments_is_paid true (Db.students db)
      + Student_countDocuments_is_paid false (Db.students db)
      <= List.length (Db.students db))%nat
  /\ ((Student_countDocuments_is_paid true (Db.students db)
       + Student_countDocuments_is_paid false (Db.students db)
       = List.length (Db.students db))%nat
      <-> forall s, In s (Db.students db) ->
                    exists b, Student.is_paid s = JBool b).
Proof.
  split; [ reflexivity | ].
  pose proof (is_paid_counts (Db.students db)) as Hsum.
  split; [ lia | ].
  set (other := fun s => negb (js_eqb (Student.is_paid s) (JBool true))
                         && negb (js_eqb (Student.is_paid s) (JBool false)))
    in *.
  split.
  - intros E s Hs.
    assert (Hnil : filter other (Db.students db) = []).
    { destruct (filter other (Db.students db)); trivial. simpl in Hsum. lia. }
    destruct (other s) eqn:Eo.
    + assert (Hin : In s (filter other (Db.students db)))
        by (apply filter_In; auto).
      rewrite Hnil in Hin. contradiction.
    + unfold other in Eo. apply andb_false_iff in Eo.
      destruct Eo as [Eo | Eo]; apply negb_false_iff, js_eqb_eq in Eo; eauto.
  - intros Hall.
    assert (Hnil : filter other (Db.students db) = []).
    { destruct (filter other (Db.students db)) as [ | s r ] eqn:F; trivial.
      assert (Hs : In s (filter other (Db.students db)))
        by (rewrite F; now left).
      apply filter_In in Hs. destruct Hs as [Hs Eo].
      destruct (Hall s Hs) as [[ | ] Eb]; unfold other in Eo;
        rewrite Eb in Eo; discriminate. }
    rewrite Hnil in Hsum. simpl in Hsum. lia.
Qed.
End SubscriptionStats.

(** ** Error answers *)

Section ErrorAnswers.
Context {odm : Odm}.

(** X19: the eligibility query turns a request down in this order: 400 for
    an id that is not well-formed, 404 when no subject has the id, 404 when
    no package includes the subject; in the last case the students are
    never looked at. *)
Theorem eligibility_query_errors (db : Db.t) (subjectId : string) :
  (ObjectId_isValid (JStr subjectId) = false ->
   getStudentsforBatchBySubject db subjectId
   = json 400 (Error "Invalid subject ID"))
  /\ (forall subject : ObjectId,
        ObjectId_isValid (JStr subjectId) = true ->
        ObjectId_new (JStr subjectId) = Some subject ->
        ((forall x, In x (Db.subjects db) -> Subject._id x <> subject) ->
         getStudentsforBatchBySubject db subjectId
         = json 404 (Error "Subject not found"))
        /\ ((exists x, In x (Db.subjects db) /\ Subject._id x = subject) ->
            package_set db subject = [] ->
            forall students',
              getStudentsforBatchBySubject (Db.with_students students' db)
                subjectId
              = json 404 (Message "No packages found for this subject"))).
Proof.
  split.
  - intros H. unfold getStudentsforBatchBySubject. now rewrite H.
  - intros subject Hvalid E. split.
    + intros Hnone.
      unfold getStudentsforBatchBySubject, Subject_exists.
      rewrite Hvalid, E. simpl.
      destruct (existsb _ (Db.subjects db)) eqn:Ex; trivial.
      apply existsb_exists in Ex. destruct Ex as [x [Hx Ex]].
      apply String.eqb_eq in Ex. now elim (Hnone x Hx).
    + intros Hex Hpk students'.
      unfold getStudentsforBatchBySubject, Subject_exists,
        Package_find_subject_id.
      rewrite Hvalid, E. simpl.
      rewrite (Subject_exists_true _ Hex). simpl.
      unfold package_set in Hpk. now rewrite Hpk.
Qed.

(** X20: the two roster lookups answer 500, not 400, to an id that is no
    identifier, and the lookup by teacher answers 500 to a request that
    carries no user; the cast error and the type error are part of the
    body. *)
Theorem batch_lookup_server_errors (db : Db.t) :
  (forall teacherId : string,
      getBatchesByTeacherId db None teacherId
      = json 500
          (MessageError "Server error"
             (TypeError "Cannot read properties of undefined")))
  /\ (forall (u : User) (teacherId : string),
        user_role u = JStr "teacher" ->
        ObjectId_new (JStr teacherId) = None ->
        getBatchesByTeacherId db (Some u) teacherId
        = json 500 (MessageError "Server error" CastError))
  /\ (forall studentId : string,
        ObjectId_new (JStr studentId) = None ->
        getBatchesByStudentId db studentId
        = json 500 (MessageError "Server error" CastError)).
Proof.
  split; [ reflexivity | split ].
  - intros u teacherId Hrole E.
    unfold getBatchesByTeacherId, Batch_find_teacher_id. simpl.
    now rewrite Hrole, E.
  - intros studentId E.
    unfold getBatchesByStudentId, Batch_find_students. now rewrite E.
Qed.

End ErrorAnswers.

(** ** The further properties on the sample data *)


Lemma createStudent_frame_witness :
  Db.wf (snd (@createStudent hexOdm Sample.db
                (Sample.dave "5a0000000000000000000004" "student")
                Sample.dave_id)).
Proof.
  apply (@createStudent_frame hexOdm Sample.db
           (Sample.dave "5a0000000000000000000004" "student") Sample.dave_id).
  - exact Sample_db_wf.
  - simpl. intuition discriminate.
Defined.


Lemma getStudentByAuthId_round_trip_witness :
  exists new,
    fst (@createStudent hexOdm Sample.db
           (Sample.dave "5a0000000000000000000004" "student") Sample.dave_id)
    = json 201 (MessageStudent "Student created successfully" new)
    /\ Student.auth_id new = JStr "auth-dave"
    /\ Student.role new = JStr "student"
    /\ @getStudentByAuthId hexOdm
         (snd (@createStudent hexOdm Sample.db
                 (Sample.dave "5a0000000000000000000004" "student")
                 Sample.dave_id))
         (Some "auth-dave")
       = json 200
           (MessageStudent "Student retrieved successfully by auth_id" new).
Proof.
  apply (proj2 (proj2 (proj2 (@getStudentByAuthId_round_trip hexOdm
                                Sample.db)))
           (Sample.dave "5a0000000000000000000004" "student") Sample.dave_id
           "auth-dave").
  - discriminate.
  - reflexivity.
  - reflexivity.
Defined.

Lemma createStudent_then_getStudentById_witness :
  exists new,
    fst (@createStudent hexOdm Sample.db
           (Sample.dave "5a0000000000000000000004" "student") Sample.dave_id)
    = json 201 (MessageStudent "Student created successfully" new)
    /\ @getStudentById hexOdm
         (snd (@createStudent hexOdm Sample.db
                 (Sample.dave "5a0000000000000000000004" "student")
                 Sample.dave_id))
         Sample.dave_id
       = json 200 (StudentDoc new).
Proof.
  apply (@createStudent_then_getStudentById hexOdm Sample.db
           (Sample.dave "5a0000000000000000000004" "student") Sample.dave_id
           Sample.dave_id).
  - reflexivity.
  - simpl. intuition discriminate.
  - reflexivity.
  - reflexivity.
Defined.

Lemma createStudent_then_deleteStudent_witness :
  @deleteStudent hexOdm
    (snd (@createStudent hexOdm Sample.db
            (Sample.dave "5a0000000000000000000004" "student")
            Sample.dave_id))
    "5a0000000000000000000004"
  = (json 200 (Message "Student deleted successfully"), Sample.db).
Proof.
  apply (@createStudent_then_deleteStudent hexOdm Sample.db
           (Sample.dave "5a0000000000000000000004" "student") Sample.dave_id
           "5a0000000000000000000004" "5a0000000000000000000004");
    reflexivity.
Defined.

Lemma deleteStudent_frame_witness :
  S (List.length
       (Db.students
          (snd (@deleteStudent hexOdm Sample.db_with_batch
                  "5a0000000000000000000002"))))
  = List.length (Db.students Sample.db_with_batch)
  /\ Db.batches
       (snd (@deleteStudent hexOdm Sample.db_with_batch
               "5a0000000000000000000002"))
     = [Sample2.morning_batch].
Proof.
  split.
  - apply (@deleteStudent_frame hexOdm Sample.db_with_batch
             "5a0000000000000000000002").
    reflexivity.
  - apply (@deleteStudent_frame hexOdm Sample.db_with_batch
             "5a0000000000000000000002").
Defined.

Lemma deleteStudent_twice_witness :
  @deleteStudent hexOdm
    (snd (@deleteStudent hexOdm Sample.db "5a0000000000000000000002"))
    "5a0000000000000000000002"
  = (json 404 (Error "Student not found"),
     snd (@deleteStudent hexOdm Sample.db "5a0000000000000000000002")).
Proof.
  apply (@deleteStudent_twice hexOdm Sample.db "5a0000000000000000000002").
  - simpl. repeat constructor; simpl; intuition discriminate.
  - reflexivity.
Defined.

Lemma Sample_alice_loaded :
  @found_student hexOdm Sample.db "0a0000000000000000000001" Sample.alice.
Proof. exists "0a0000000000000000000001". split; reflexivity. Qed.

Lemma updateStudent_frame_witness :
  Db.wf (snd (@updateStudent hexOdm Sample.db "0a0000000000000000000001"
                Sample.unsubscribe))
  /\ snd (@updateStudent hexOdm Sample.db "0a0000000000000000000009"
            Sample.unsubscribe)
     = Sample.db.
Proof.
  split.
  - apply (@updateStudent_frame hexOdm Sample.db "0a0000000000000000000001"
             Sample.unsubscribe).
    exact Sample_db_wf.
  - apply (@updateStudent_frame hexOdm Sample.db "0a0000000000000000000009"
             Sample.unsubscribe).
    discriminate.
Defined.


Lemma updateStudent_nothing_to_set_witness :
  (fst (@updateStudent hexOdm Sample.db "0a0000000000000000000001"
          Sample2.blank_update)
   = json 200 (MessageStudent "Student updated successfully" Sample.alice)
   /\ snd (@updateStudent hexOdm Sample.db "0a0000000000000000000001"
             Sample2.blank_update)
      = Sample.db)
  /\ Student_findById Sample.carol_id
       (Db.students
          (snd (@updateStudent hexOdm Sample.db "0a0000000000000000000003"
                  Sample2.blank_update)))
     = Some (Student.with_batch_creation (Some []) Sample.carol).
Proof.
  assert (Hblank : sets_nothing Sample2.blank_update)
    by (unfold sets_nothing; simpl; repeat split).
  split.
  - destruct (@updateStudent_nothing_to_set hexOdm Sample.db
                "0a0000000000000000000001" Sample2.blank_update Sample.alice
                Sample_db_wf Hblank Sample_alice_loaded eq_refl)
      as (E & _ & Hsame).
    split; [ now rewrite E | ]. apply Hsame. reflexivity.
  - apply (@updateStudent_nothing_to_set hexOdm Sample.db
             "0a0000000000000000000003" Sample2.blank_update Sample.carol
             Sample_db_wf Hblank).
    + exists "0a0000000000000000000003". split; reflexivity.
    + reflexivity.
Defined.

Lemma subscription_stats_partial_witness :
  @getStudentSubscriptionStats Sample2.db
  = (200%nat,
     JObj [ ("message",
             JStr "Student subscription statistics fetched successfully");
            ("data",
             JObj [ ("subscribed", JNum 2); ("notSubscribed", JNum 1) ]) ])
  /\ List.length (Db.students Sample2.db) = 4%nat
  /\ ~ (forall s, In s (Db.students Sample2.db) ->
                  exists b, Student.is_paid s = JBool b).
Proof.
  destruct (subscription_stats_partial Sample2.db) as (E & _ & Hiff).
  split; [ exact E | ]. split; [ reflexivity | ].
  intros Hall. apply Hiff in Hall. vm_compute in Hall. discriminate.
Defined.

Lemma eligibility_query_errors_witness :
  @getStudentsforBatchBySubject hexOdm Sample2.db_chemistry "chemistry"
  = json 400 (Error "Invalid subject ID")
  /\ @getStudentsforBatchBySubject hexOdm Sample.db Sample2.chemistry
     = json 404 (Error "Subject not found")
  /\ @getStudentsforBatchBySubject hexOdm
       (Db.with_students (Db.students Sample2.db) Sample2.db_chemistry)
       Sample2.chemistry
     = json 404 (Message "No packages found for this subject").
Proof.
  split; [ | split ].
  - apply (@eligibility_query_errors hexOdm). reflexivity.
  - apply (proj2 (@eligibility_query_errors hexOdm Sample.db Sample2.chemistry)
             Sample2.chemistry eq_refl eq_refl).
    simpl. intros x [<- | [<- | []]]; discriminate.
  - apply (proj2 (@eligibility_query_errors hexOdm Sample2.db_chemistry
                    Sample2.chemistry)
             Sample2.chemistry eq_refl eq_refl).
    + exists (Subject.mk Sample2.chemistry (JStr "Chemistry")). simpl. auto.
    + reflexivity.
Defined.

Lemma batch_lookup_server_errors_witness :
  @getBatchesByTeacherId hexOdm Sample.db_with_batch
    (Some (mkUser (JStr "teacher"))) "teacher-1"
  = json 500 (MessageError "Server error" CastError)
  /\ @getBatchesByStudentId hexOdm Sample.db_with_batch "bob"
     = json 500 (MessageError "Server error" CastError).
Proof.
  split.
  - apply (@batch_lookup_server_errors hexOdm Sample.db_with_batch);
      reflexivity.
  - apply (@batch_lookup_server_errors hexOdm Sample.db_with_batch).
    reflexivity.
Defined.

